(** * Sidebar loader of web-cqms: workflow-state classifier, notification
      cache, badges and role-gated navigation

    A shallow embedding of the logic of [src/load-sidebar.js] (class
    [SidebarLoader]) and the properties of it that the specification states.

    Conventions of the embedding.
    - A JavaScript value read from a record is a [value]: undefined, null, a
      boolean, a number or a string.  Numbers are the integers and NaN; the
      code only compares record numbers with 0 and 1 and tests truthiness, so
      a fractional number behaves like any integer other than 0 and 1.
    - Strings are sequences of code units below 256.
    - A method call on a value that has no such method raises a TypeError;
      fallible code returns a [result].
    - A record is a finite map from field names to values; reading a missing
      field gives undefined. *)

From Stdlib Require Import ZArith Lia Bool Ascii String List.
From stdpp Require Import gmap strings list fin_maps.

Local Open Scope Z_scope.

(** ** JavaScript values *)

Module JS.

Inductive number := Int (z : Z) | NaN.

Inductive value :=
| VUndefined
| VNull
| VBool (b : bool)
| VNum (n : number)
| VStr (s : string).

Inductive error := TypeError | Rejected.

Inductive result (A : Type) :=
| Ok (a : A)
| Throw (e : error).
Arguments Ok {A} a.
Arguments Throw {A} e.

Definition rbind {A B} (m : result A) (k : A -> result B) : result B :=
  match m with
  | Ok a => k a
  | Throw e => Throw e
  end.

Definition number_eqb (a b : number) : bool :=
  match a, b with
  | Int x, Int y => Z.eqb x y
  | _, _ => false
  end.

(** [a === b] *)
Definition strict_eq (a b : value) : bool :=
  match a, b with
  | VUndefined, VUndefined => true
  | VNull, VNull => true
  | VBool x, VBool y => Bool.eqb x y
  | VNum x, VNum y => number_eqb x y
  | VStr x, VStr y => String.eqb x y
  | _, _ => false
  end.

(** ToBoolean *)
Definition truthy (v : value) : bool :=
  match v with
  | VUndefined | VNull => false
  | VBool b => b
  | VNum (Int z) => negb (Z.eqb z 0)
  | VNum NaN => false
  | VStr s => negb (String.eqb s "")
  end.

(** [a || b] *)
Definition orElse (a b : value) : value := if truthy a then a else b.

(** *** String methods *)

Definition isWhiteSpace (c : ascii) : bool :=
  let n := N_of_ascii c in
  (N.leb 9 n && N.leb n 13) || N.eqb n 32 || N.eqb n 160.

Fixpoint trimStart (s : string) : string :=
  match s with
  | String c s' => if isWhiteSpace c then trimStart s' else s
  | EmptyString => EmptyString
  end.

Fixpoint trimEnd (s : string) : string :=
  match s with
  | String c s' =>
      match trimEnd s' with
      | EmptyString => if isWhiteSpace c then EmptyString else String c EmptyString
      | t => String c t
      end
  | EmptyString => EmptyString
  end.

Definition trim (s : string) : string := trimEnd (trimStart s).

Definition lowerChar (c : ascii) : ascii :=
  let n := N_of_ascii c in
  if (N.leb 65 n && N.leb n 90)
     || (N.leb 192 n && N.leb n 222 && negb (N.eqb n 215))
  then ascii_of_N (n + 32) else c.

Fixpoint toLowerCase (s : string) : string :=
  match s with
  | String c s' => String (lowerChar c) (toLowerCase s')
  | EmptyString => EmptyString
  end.

Fixpoint startsWith (s p : string) : bool :=
  match p, s with
  | EmptyString, _ => true
  | String a p', String b s' => Ascii.eqb a b && startsWith s' p'
  | String _ _, EmptyString => false
  end.

(** [s.includes(p)] *)
Fixpoint includes (s p : string) : bool :=
  startsWith s p ||
  match s with
  | String _ s' => includes s' p
  | EmptyString => false
  end.

(** [v.trim()] and [v.toLowerCase()] on a value of unknown type: only
    strings have the method. *)
Definition callTrim (v : value) : result value :=
  match v with
  | VStr s => Ok (VStr (trim s))
  | _ => Throw TypeError
  end.

Definition callToLowerCase (v : value) : result string :=
  match v with
  | VStr s => Ok (toLowerCase s)
  | _ => Throw TypeError
  end.

(** [list.includes(v)] for a list of string literals. *)
Definition arrayIncludes (l : list string) (v : value) : bool :=
  existsb (fun s => strict_eq v (VStr s)) l.

(** *** Numbers: arithmetic, [toString] and [parseInt(_, 10)] *)

(** [a - b] *)
Definition sub (a b : number) : number :=
  match a, b with
  | Int x, Int y => Int (x - y)
  | _, _ => NaN
  end.

(** [a > b]; every comparison with NaN is false. *)
Definition gt (a b : number) : bool :=
  match a, b with
  | Int x, Int y => Z.ltb y x
  | _, _ => false
  end.

(** [a + b] and [Math.max(a, b)] *)
Definition add (a b : number) : number :=
  match a, b with
  | Int x, Int y => Int (x + y)
  | _, _ => NaN
  end.

Definition max (a b : number) : number :=
  match a, b with
  | Int x, Int y => Int (Z.max x y)
  | _, _ => NaN
  end.

Definition digitChar (d : Z) : ascii :=
  match d with
  | 0 => "0" | 1 => "1" | 2 => "2" | 3 => "3" | 4 => "4"
  | 5 => "5" | 6 => "6" | 7 => "7" | 8 => "8" | _ => "9"
  end%char.

Definition digitValue (c : ascii) : option Z :=
  let n := N_of_ascii c in
  if N.leb 48 n && N.leb n 57 then Some (Z.of_N n - 48) else None.

(** The decimal digits of [n >= 0], most significant first, in front of
    [acc].  The fuel bounds the number of digits. *)
Fixpoint digitsAcc (fuel : nat) (n : Z) (acc : string) : string :=
  let acc' := String (digitChar (n mod 10)) acc in
  if n <? 10 then acc'
  else match fuel with
       | O => acc'
       | S fuel' => digitsAcc fuel' (n / 10) acc'
       end.

Definition digits (n : Z) : string :=
  digitsAcc (Z.to_nat (Z.log2 n)) n EmptyString.

(** [x.toString()] *)
Definition toString (x : number) : string :=
  match x with
  | Int z => if z <? 0 then String "-"%char (digits (- z)) else digits z
  | NaN => "NaN"
  end.

Fixpoint parseDigits (acc : Z) (s : string) : Z :=
  match s with
  | String c s' =>
      match digitValue c with
      | Some d => parseDigits (10 * acc + d) s'
      | None => acc
      end
  | EmptyString => acc
  end.

(** [parseInt(s, 10)]: leading white space, an optional sign, then the
    longest run of decimal digits; NaN when there is no digit. *)
Definition parseInt (s : string) : number :=
  let t := trimStart s in
  let '(sign, body) :=
    match t with
    | String "-"%char b => (-1, b)
    | String "+"%char b => (1, b)
    | _ => (1, t)
    end in
  match body with
  | String c _ =>
      match digitValue c with
      | Some _ => Int (sign * parseDigits 0 body)
      | None => NaN
      end
  | EmptyString => NaN
  end.

End JS.

Import JS.

Notation "x <- m ;; k" := (rbind m (fun x => k))
  (at level 100, m at next level, right associativity).

(** ** Reversal records *)

Definition field (r : gmap string value) (name : string) : value :=
  default VUndefined (r !! name).

(** The ten workflow-state labels of the specification. *)
Definition workflowLabels : list string :=
  ["team_lead_review"; "team_lead_rejected"; "qa_review"; "cqc_review";
   "cqc_sent_back"; "agent_re_review"; "approved"; "rejected";
   "acknowledged"; "pending"].

Module SidebarLoader.

(** [v === true || v === 'true' || v === 1 || v === '1'], the comparison the
    source writes out for every approval flag. *)
Definition isTrueFlag (v : value) : bool :=
  strict_eq v (VBool true) || strict_eq v (VStr "true")
  || strict_eq v (VNum (Int 1)) || strict_eq v (VStr "1").

(** [v === false || v === 'false' || v === 0 || v === '0'] *)
Definition isFalseFlag (v : value) : bool :=
  strict_eq v (VBool false) || strict_eq v (VStr "false")
  || strict_eq v (VNum (Int 0)) || strict_eq v (VStr "0").

(** [v && v.trim()] *)
Definition andTrim (v : value) : result value :=
  if truthy v then callTrim v else Ok v.

(** [(reversal.acknowledgement_status || reversal.acknowledgementStatus || '').toLowerCase()] *)
Definition ackStatusOf (reversal : gmap string value) : result string :=
  callToLowerCase
    (orElse (orElse (field reversal "acknowledgement_status")
                    (field reversal "acknowledgementStatus"))
            (VStr "")).

(** The keyword chain of the legacy path, in source order. *)
Definition legacyKeyword (ackStatus : string) : option string :=
  if includes ackStatus "team_lead_review" then Some "team_lead_review"
  else if includes ackStatus "team_lead_rejected" then Some "team_lead_rejected"
  else if includes ackStatus "qa_review" || includes ackStatus "auditor_review"
       then Some "qa_review"
  else if includes ackStatus "cqc_review" then Some "cqc_review"
  else if includes ackStatus "cqc_sent_back" then Some "cqc_sent_back"
  else if includes ackStatus "agent_re_review" then Some "agent_re_review"
  else if includes ackStatus "reversal_approved" then Some "approved"
  else if includes ackStatus "reversal_rejected" then Some "rejected"
  else if String.eqb ackStatus "acknowledged" || includes ackStatus "acknowledged"
       then Some "acknowledged"
  else None.

(** The last four statements of the legacy path, on [reversal.reversal_approved]. *)
Definition legacyApproved (approved : value) : string :=
  if strict_eq approved VNull || strict_eq approved VUndefined then "pending"
  else if isTrueFlag approved then "approved"
  else if isFalseFlag approved then "rejected"
  else "pending".

Definition getReversalWorkflowState (reversal : gmap string value) : result value :=
  if truthy (field reversal "reversal_workflow_state") then
    let dbWorkflowState := field reversal "reversal_workflow_state" in
    let teamLeadApproved :=
      isTrueFlag (field reversal "team_lead_approved")
      || isTrueFlag (field reversal "teamLeadApproved") in
    let teamLeadRejected :=
      isFalseFlag (field reversal "team_lead_approved")
      || isFalseFlag (field reversal "teamLeadApproved") in
    hasTeamLeadReviewed <-
      (if teamLeadApproved || teamLeadRejected then Ok (VBool true)
       else
         byName <- andTrim (field reversal "team_lead_reviewed_by") ;;
         if truthy byName then Ok byName
         else andTrim (field reversal "teamLeadReviewedBy")) ;;
    if (strict_eq dbWorkflowState (VStr "qa_review")
        || strict_eq dbWorkflowState (VStr "cqc_review"))
       && negb (truthy hasTeamLeadReviewed)
    then Ok (VStr "team_lead_review")
    else if teamLeadRejected then Ok (VStr "team_lead_rejected")
    else Ok dbWorkflowState
  else
    ackStatus <- ackStatusOf reversal ;;
    match legacyKeyword ackStatus with
    | Some label => Ok (VStr label)
    | None => Ok (VStr (legacyApproved (field reversal "reversal_approved")))
    end.

Definition pendingStates : list string :=
  ["pending"; "submitted"; "team_lead_review"; "team_lead_approved";
   "qa_review"; "cqc_review"; "cqc_sent_back"; "agent_re_review"].

Definition isPendingWorkflowState (reversal : gmap string value) : result bool :=
  workflowState <- getReversalWorkflowState reversal ;;
  if arrayIncludes pendingStates workflowState then Ok true
  else
    let teamLeadApproved :=
      isTrueFlag (field reversal "team_lead_approved")
      || isTrueFlag (field reversal "teamLeadApproved") in
    let finalDecision := field reversal "reversal_approved" in
    let hasFinalDecision :=
      negb (strict_eq finalDecision VNull)
      && negb (strict_eq finalDecision VUndefined) in
    if teamLeadApproved && negb hasFinalDecision then Ok true
    else
      ackStatus <- ackStatusOf reversal ;;
      if includes ackStatus "pending - reversal_approved"
         || includes ackStatus "pending - reversal_rejected"
      then Ok true
      else if strict_eq workflowState (VStr "qa_review")
              || strict_eq workflowState (VStr "cqc_review")
      then Ok true
      else Ok false.

(** [isPendingWorkflowState] with its last [if] (the test of the classified
    state against qa_review and cqc_review) deleted. *)
Definition isPendingWorkflowState_withoutLastClause
    (reversal : gmap string value) : result bool :=
  workflowState <- getReversalWorkflowState reversal ;;
  if arrayIncludes pendingStates workflowState then Ok true
  else
    let teamLeadApproved :=
      isTrueFlag (field reversal "team_lead_approved")
      || isTrueFlag (field reversal "teamLeadApproved") in
    let finalDecision := field reversal "reversal_approved" in
    let hasFinalDecision :=
      negb (strict_eq finalDecision VNull)
      && negb (strict_eq finalDecision VUndefined) in
    if teamLeadApproved && negb hasFinalDecision then Ok true
    else
      ackStatus <- ackStatusOf reversal ;;
      if includes ackStatus "pending - reversal_approved"
         || includes ackStatus "pending - reversal_rejected"
      then Ok true
      else Ok false.

End SidebarLoader.

Import SidebarLoader.

(** ** The page: user, local storage and badges *)

Record Badge := { textContent : string; display : string }.

(** What the loader reads and writes of the page.  The [userInfo] item of
    local storage is kept in parsed form, as [JSON.parse] gives it ([None]:
    the item is missing or is not JSON, so that [getUserInfo] returns
    null); [localStorage] holds the other items; [badges] maps an element id
    to the badge with that id. *)
Record Browser := {
  userInfo : option (gmap string value);
  localStorage : gmap string string;
  badges : gmap string Badge
}.

(** The functions of the cache on the notification items.  [userInfo] is
    what the call of [getUserInfo] in the key computation returns; what that
    call writes to the item [userInfo] is in [Update.getUserInfo], and
    [Update.getCached] and [Update.setCached] run the functions on the
    page. *)
Module Cache.

(** Cache duration: 5 minutes. *)
Definition CACHE_DURATION_MS : Z := 5 * 60 * 1000.

(** [userInfo ? (userInfo.email || 'anonymous').toLowerCase().trim() : 'anonymous'] *)
Definition cacheUserEmail (userInfo : option (gmap string value)) : result string :=
  match userInfo with
  | Some u =>
      lower <- callToLowerCase (orElse (field u "email") (VStr "anonymous")) ;;
      Ok (trim lower)
  | None => Ok "anonymous"
  end.

Definition getNotificationCacheKey
    (userInfo : option (gmap string value)) (type : string) : result string :=
  userEmail <- cacheUserEmail userInfo ;;
  Ok ("notification_count_" +:+ type +:+ "_" +:+ userEmail).

Definition getNotificationCacheTimestampKey
    (userInfo : option (gmap string value)) (type : string) : result string :=
  userEmail <- cacheUserEmail userInfo ;;
  Ok ("notification_count_" +:+ type +:+ "_timestamp_" +:+ userEmail).

(** [!item] for the result of [localStorage.getItem]: null or the empty
    string. *)
Definition missing (item : option string) : bool :=
  match item with
  | Some s => String.eqb s ""
  | None => true
  end.

(** Returns the cached count (or null) and the storage it leaves.  [now] is
    the value of [Date.now()]. *)
Definition getCachedNotificationCount
    (userInfo : option (gmap string value)) (now : Z) (type : string)
    (storage : gmap string string) : option number * gmap string string :=
  match getNotificationCacheKey userInfo type,
        getNotificationCacheTimestampKey userInfo type with
  | Ok cacheKey, Ok timestampKey =>
      let cachedData := storage !! cacheKey in
      let cachedTimestamp := storage !! timestampKey in
      if missing cachedData || missing cachedTimestamp then (None, storage)
      else
        let timestamp := parseInt (default "" cachedTimestamp) in
        if gt (sub (Int now) timestamp) (Int CACHE_DURATION_MS)
        then (None, delete timestampKey (delete cacheKey storage))
        else (Some (parseInt (default "" cachedData)), storage)
  | _, _ => (None, storage)
  end.

Definition setCachedNotificationCount
    (userInfo : option (gmap string value)) (now : Z) (type : string)
    (count : number) (storage : gmap string string) : gmap string string :=
  match getNotificationCacheKey userInfo type,
        getNotificationCacheTimestampKey userInfo type with
  | Ok cacheKey, Ok timestampKey =>
      <[timestampKey := toString (Int now)]>
        (<[cacheKey := toString count]> storage)
  | _, _ => storage
  end.

End Cache.

Module Badges.

(** The setters on the badges of the page.  [render] is the two branches
    every setter ends with. *)
Definition render (count : number) (badge : Badge) : Badge :=
  if gt count (Int 0) then
    {| textContent := if gt count (Int 99) then "99+" else toString count;
       display := "inline-flex" |}
  else
    {| textContent := textContent badge; display := "none" |}.

Definition setReversalBadgeCount
    (count : number) (page : gmap string Badge) : gmap string Badge :=
  match page !! "reversalNotificationBadge" with
  | None => page
  | Some badge => <["reversalNotificationBadge" := render count badge]> page
  end.

Definition setEmployeeReversalBadgeCount
    (userInfo : option (gmap string value))
    (count : number) (page : gmap string Badge) : gmap string Badge :=
  match page !! "employeeReversalNotificationBadge" with
  | None => page
  | Some badge =>
      let notEmployee :=
        match userInfo with
        | Some u => negb (strict_eq (field u "role") (VStr "Employee"))
        | None => false
        end in
      if notEmployee
      then <["employeeReversalNotificationBadge" :=
               {| textContent := textContent badge; display := "none" |}]> page
      else <["employeeReversalNotificationBadge" := render count badge]> page
  end.

Definition setAcknowledgmentBadgeCount
    (count : number) (page : gmap string Badge) : gmap string Badge :=
  match page !! "acknowledgmentNotificationBadge" with
  | None => page
  | Some badge => <["acknowledgmentNotificationBadge" := render count badge]> page
  end.

End Badges.

(** ** Recomputing the counts *)

(** What awaiting a backend query gives: the promise rejects, or resolves to
    an object with a [data] and an [error] field. *)
Inductive Response (A : Type) :=
| Rejects
| Resolves (data : option A) (error : bool).
Arguments Rejects {A}.
Arguments Resolves {A} data error.

(** The backend as the three recomputations see it.
    - [supabaseClient]: whether [window.supabaseClient] is set.
    - [scorecards]: the answer to the query on the scorecards table (the
      table names).
    - [combinedReversals]: the records that the two loading steps of
      [updatePendingReversalsCount] collect (reversal requests merged with
      their audits, then the legacy columns of the remaining tables).  Every
      failure inside these steps is caught there, so they only determine the
      list.
    - [respondedCount table column who]: the answer to the count of
      responded reversals of [table] whose [column] matches [who].
    - [acknowledgements table email]: the answer to the query on the
      acknowledgement columns of [table], filtered by [email] if given. *)
Record Backend := {
  supabaseClient : bool;
  scorecards : Response (list string);
  combinedReversals : list (gmap string value);
  respondedCount : string -> string -> value -> Response number;
  acknowledgements : string -> option string -> Response (list (gmap string value))
}.

Module Update.

Import Cache Badges.

(** Code that reads and writes the page and may throw: the page as it is
    when the code returns or throws is part of the outcome. *)
Definition M (A : Type) : Type := Browser -> result A * Browser.

Definition ret {A} (a : A) : M A := fun page => (Ok a, page).

Definition bind {A B} (m : M A) (k : A -> M B) : M B :=
  fun page =>
    match m page with
    | (Ok a, page') => k a page'
    | (Throw e, page') => (Throw e, page')
    end.

Definition lift {A} (r : result A) : M A := fun page => (r, page).

(** [await query] *)
Definition await {A} (q : Response A) : M (option A * bool) :=
  match q with
  | Rejects => lift (Throw Rejected)
  | Resolves data error => ret (data, error)
  end.

(** [try { body } catch (error) { handler }] *)
Definition tryCatch {A} (body handler : M A) : M A :=
  fun page =>
    match body page with
    | (Ok a, page') => (Ok a, page')
    | (Throw _, page') => handler page'
    end.

(** [getUserInfo]: the parsed item [userInfo], or null.  A user that has a
    picture and no avatar gets the picture as avatar, and the item is
    written back ([parsedUserInfo.avatar = parsedUserInfo.picture;
    localStorage.setItem("userInfo", ...)]). *)
Definition getUserInfo : M (option (gmap string value)) :=
  fun page =>
    match userInfo page with
    | None => (Ok None, page)
    | Some parsedUserInfo =>
        if truthy (field parsedUserInfo "picture")
           && negb (truthy (field parsedUserInfo "avatar"))
        then
          let parsedUserInfo :=
            <["avatar" := field parsedUserInfo "picture"]> parsedUserInfo in
          (Ok (Some parsedUserInfo),
           {| userInfo := Some parsedUserInfo;
              localStorage := localStorage page;
              badges := badges page |})
        else (Ok (Some parsedUserInfo), page)
    end.

(** [getCachedNotificationCount(type)] on the page.  The computation of the
    key calls [getUserInfo]; the one of the timestamp key calls it again and
    gets the same user, the avatar being set by then. *)
Definition getCached (now : Z) (type : string) : M (option number) :=
  bind getUserInfo (fun user page =>
    let '(cached, storage) :=
      getCachedNotificationCount user now type (localStorage page) in
    (Ok cached,
     {| userInfo := userInfo page; localStorage := storage; badges := badges page |})).

(** [setCachedNotificationCount(type, count)] on the page. *)
Definition setCached (now : Z) (type : string) (count : number) : M unit :=
  bind getUserInfo (fun user page =>
    (Ok tt,
     {| userInfo := userInfo page;
        localStorage :=
          setCachedNotificationCount user now type count (localStorage page);
        badges := badges page |})).

Definition setBadge (set : gmap string Badge -> gmap string Badge) : M unit :=
  fun page =>
    (Ok tt,
     {| userInfo := userInfo page; localStorage := localStorage page;
        badges := set (badges page) |}).

(** [setEmployeeReversalBadgeCount(count)] on the page: without the badge
    element it returns at once; else it reads the user itself. *)
Definition setEmployeeBadge (count : number) : M unit :=
  fun page =>
    match badges page !! "employeeReversalNotificationBadge" with
    | None => (Ok tt, page)
    | Some _ =>
        bind getUserInfo (fun user =>
          setBadge (Badges.setEmployeeReversalBadgeCount user count)) page
    end.

End Update.

Import Update.

Notation "x <-- m ;; k" := (bind m (fun x => k))
  (at level 100, m at next level, right associativity).
Notation "m ;;; k" := (bind m (fun _ => k))
  (at level 100, right associativity).

Module Recompute.

Import Cache Badges.

(** [userInfo && userInfo.role === 'Employee'] *)
Definition isEmployee (userInfo : option (gmap string value)) : bool :=
  match userInfo with
  | Some u => strict_eq (field u "role") (VStr "Employee")
  | None => false
  end.

(** [array.filter(p).length] for a predicate that may throw. *)
Fixpoint countWhere {A} (p : A -> result bool) (l : list A) : result Z :=
  match l with
  | [] => Ok 0
  | x :: l' =>
      keep <- p x ;;
      rest <- countWhere p l' ;;
      Ok (if keep then 1 + rest else rest)
  end.

(** *** Pending reversals (for auditors) *)

Definition pendingReversalsFallback (now : Z) : M unit :=
  cachedCount <-- getCached now "reversals" ;;
  match cachedCount with
  | Some c => setBadge (setReversalBadgeCount c)
  | None => setBadge (setReversalBadgeCount (Int 0))
  end.

(** The try block.  Without a backend client the source schedules another
    call one second later and returns; the embedding follows one call. *)
Definition pendingReversalsAttempt (be : Backend) (now : Z) : M unit :=
  userInfo <-- getUserInfo ;;
  if isEmployee userInfo then setBadge (setReversalBadgeCount (Int 0))
  else if negb (supabaseClient be) then ret tt
  else
    answer <-- await (scorecards be) ;;
    let '(allScorecards, scorecardsError) := answer in
    if scorecardsError then ret tt
    else
      pending <-- lift (countWhere isPendingWorkflowState (combinedReversals be)) ;;
      setCached now "reversals" (Int pending) ;;;
      setBadge (setReversalBadgeCount (Int pending)).

Definition updatePendingReversalsCount (be : Backend) (now : Z) : M unit :=
  tryCatch (pendingReversalsAttempt be now) (pendingReversalsFallback now).

(** *** Responded reversals (for employees) *)

Definition employeeReversalsFallback (now : Z) : M unit :=
  cachedCount <-- getCached now "employeeReversals" ;;
  match cachedCount with
  | Some c => setEmployeeBadge c
  | None => setEmployeeBadge (Int 0)
  end.

(** One [count] query of the loop body: the count if the query answers
    without error and with a count, else 0; a rejection propagates. *)
Definition countOf (q : Response number) : result number :=
  match q with
  | Rejects => Throw Rejected
  | Resolves (Some count) false => Ok count
  | Resolves _ _ => Ok (Int 0)
  end.

(** The body of the loop over the scorecards, inside its own try/catch:
    what the table adds to the total. *)
Definition respondedInTable
    (be : Backend) (employeeName employeeEmail : value) (table : string) : number :=
  match
    (countByName <-
       (if truthy employeeName
        then countOf (respondedCount be table "employee_name" employeeName)
        else Ok (Int 0)) ;;
     countByEmail <-
       (if truthy employeeEmail
        then countOf (respondedCount be table "employee_email" employeeEmail)
        else Ok (Int 0)) ;;
     Ok (JS.max countByName countByEmail))
  with
  | Ok n => n
  | Throw _ => Int 0
  end.

Definition employeeReversalsAttempt (be : Backend) (now : Z) : M unit :=
  userInfo <-- getUserInfo ;;
  match userInfo with
  | None => ret tt
  | Some u =>
      if negb (strict_eq (field u "role") (VStr "Employee")) then ret tt
      else if negb (supabaseClient be) then ret tt
      else
        let employeeName := orElse (field u "name") (VStr "") in
        let employeeEmail := orElse (field u "email") (VStr "") in
        if negb (truthy employeeName) && negb (truthy employeeEmail) then ret tt
        else
          answer <-- await (scorecards be) ;;
          let '(tables, scorecardsError) := answer in
          if scorecardsError then ret tt
          else
            match tables with
            | None | Some [] => setEmployeeBadge (Int 0)
            | Some tables =>
                let totalResponded :=
                  fold_left
                    (fun total table =>
                       add total (respondedInTable be employeeName employeeEmail table))
                    tables (Int 0) in
                setCached now "employeeReversals" totalResponded ;;;
                setEmployeeBadge totalResponded
            end
  end.

Definition updateEmployeeReversalUpdatesCount (be : Backend) (now : Z) : M unit :=
  tryCatch (employeeReversalsAttempt be now) (employeeReversalsFallback now).

(** *** Pending acknowledgments *)

Definition pendingAcknowledgmentsFallback (now : Z) : M unit :=
  cachedCount <-- getCached now "acknowledgments" ;;
  match cachedCount with
  | Some c => setBadge (setAcknowledgmentBadgeCount c)
  | None => setBadge (setAcknowledgmentBadgeCount (Int 0))
  end.

(** The filter callback: whether an audit row awaits acknowledgment. *)
Definition isPendingAcknowledgment
    (isAgent : bool) (currentUserEmail : string) (audit : gmap string value)
    : result bool :=
  mine <-
    (if isAgent && negb (String.eqb currentUserEmail "") then
       lower <- callToLowerCase (orElse (field audit "employee_email") (VStr "")) ;;
       Ok (String.eqb (trim lower) currentUserEmail)
     else Ok true) ;;
  if negb mine then Ok false
  else
    let status := field audit "acknowledgement_status" in
    if negb (truthy status) then Ok true
    else
      trimmed <- callTrim status ;;
      Ok (strict_eq trimmed (VStr "") || strict_eq status (VStr "Pending")).

(** The body of the loop over the scorecards, inside its own try/catch. *)
Definition pendingInTable
    (be : Backend) (isAgent : bool) (currentUserEmail : string) (table : string) : Z :=
  let filter :=
    if isAgent && negb (String.eqb currentUserEmail "")
    then Some currentUserEmail else None in
  match acknowledgements be table filter with
  | Resolves (Some rows) false =>
      match countWhere (isPendingAcknowledgment isAgent currentUserEmail) rows with
      | Ok n => n
      | Throw _ => 0
      end
  | _ => 0
  end.

Definition pendingAcknowledgmentsAttempt (be : Backend) (now : Z) : M unit :=
  if negb (supabaseClient be) then ret tt
  else
    userInfo <-- getUserInfo ;;
    let isAgent := isEmployee userInfo in
    currentUserEmail <--
      lift (match userInfo with
            | Some u =>
                lower <- callToLowerCase (orElse (field u "email") (VStr "")) ;;
                Ok (trim lower)
            | None => Ok ""
            end) ;;
    answer <-- await (scorecards be) ;;
    let '(tables, scorecardsError) := answer in
    if scorecardsError then ret tt
    else
      match tables with
      | None | Some [] => setBadge (setAcknowledgmentBadgeCount (Int 0))
      | Some tables =>
          let totalPending :=
            fold_left
              (fun total table => total + pendingInTable be isAgent currentUserEmail table)
              tables 0 in
          setCached now "acknowledgments" (Int totalPending) ;;;
          setBadge (setAcknowledgmentBadgeCount (Int totalPending))
      end.

Definition updatePendingAcknowledgmentsCount (be : Backend) (now : Z) : M unit :=
  tryCatch (pendingAcknowledgmentsAttempt be now) (pendingAcknowledgmentsFallback now).

End Recompute.

(** ** The navigation menu *)

(** The button or link of a menu entry: its class ([menu-item] or
    [submenu-item]) and the two attributes the selectors test. *)
Record Item := {
  itemClass : string;
  ariaLabel : option string;
  href : option string
}.

(** A list element [<li role="none">] of the sidebar: its id, its item, its
    inline [style.display] and the entries of its sub-menu. *)
#[local] Unset Elimination Schemes.
Inductive Li :=
| MkLi (id : option string) (item : Item) (display : option string)
       (submenu : list Li).
#[local] Set Elimination Schemes.

(** Induction over an entry and the entries of its sub-menu. *)
Section LiInduction.
Variable P : Li -> Prop.
Hypothesis step : forall i it d sub, Forall P sub -> P (MkLi i it d sub).

Fixpoint Li_induction (l : Li) : P l :=
  match l with
  | MkLi i it d sub =>
      step i it d sub
        ((fix all (ls : list Li) : Forall P ls :=
            match ls with
            | [] => List.Forall_nil P
            | x :: xs => List.Forall_cons P x xs (Li_induction x) (all xs)
            end) sub)
  end.
End LiInduction.

Module Menu.

Definition button (label : string) : Item :=
  {| itemClass := "menu-item"; ariaLabel := Some label; href := None |}.

Definition link (label target : string) : Item :=
  {| itemClass := "menu-item"; ariaLabel := Some label; href := Some target |}.

Definition sublink (target : string) : Item :=
  {| itemClass := "submenu-item"; ariaLabel := None; href := Some target |}.

Definition entry (it : Item) : Li := MkLi None it None [].

(** The menu of [getEmbeddedSidebarHTML]. *)
Definition embeddedSidebar : list Li :=
  [ entry (button "Search");
    entry (button "Home");
    entry (button "Auditor's Dashboard");
    entry (button "Audit Distribution");
    entry (button "Create New Audit");
    entry (link "Audit Reports" "audit-reports.html");
    entry (button "Performance");
    entry (button "Coaching & Remediation");
    entry (button "Reversal Management");
    entry (link "Event Management" "event-management.html");
    MkLi None (button "Improvement Corner") None
      [ entry (sublink "calibration.html");
        entry (sublink "ata.html");
        entry (sublink "grading-guide.html") ];
    MkLi None (button "Settings") None
      [ entry (sublink "scorecards.html");
        entry (sublink "user-management.html");
        MkLi (Some "accessControlMenuItem") (sublink "access-control.html")
             (Some "none") [];
        entry (sublink "profile.html") ];
    MkLi None (button "Help") None
      [ entry (sublink "help.html");
        entry (sublink "bug-report.html");
        entry (sublink "bug-reports-view.html") ] ].

(** Selector [[aria-label="label"]] *)
Definition byLabel (label : string) (it : Item) : bool :=
  match ariaLabel it with
  | Some l => String.eqb l label
  | None => false
  end.

(** Selector [.submenu-item[href="target"]] *)
Definition bySubmenuHref (target : string) (it : Item) : bool :=
  String.eqb (itemClass it) "submenu-item" &&
  match href it with
  | Some h => String.eqb h target
  | None => false
  end.

(** [document.querySelector(sel)] followed by
    [closest('li[role="none"]').style.display = 'none']: the first entry in
    document order whose item matches is hidden.  [None] when no item
    matches. *)
Fixpoint hideInLi (sel : Item -> bool) (l : Li) : option Li :=
  match l with
  | MkLi i it d sub =>
      if sel it then Some (MkLi i it (Some "none") sub)
      else
        match
          (fix inList (ls : list Li) : option (list Li) :=
             match ls with
             | [] => None
             | x :: xs =>
                 match hideInLi sel x with
                 | Some x' => Some (x' :: xs)
                 | None => option_map (cons x) (inList xs)
                 end
             end) sub
        with
        | Some sub' => Some (MkLi i it d sub')
        | None => None
        end
  end.

Fixpoint hideFirst (sel : Item -> bool) (menu : list Li) : option (list Li) :=
  match menu with
  | [] => None
  | x :: xs =>
      match hideInLi sel x with
      | Some x' => Some (x' :: xs)
      | None => option_map (cons x) (hideFirst sel xs)
      end
  end.

(** Hide the first match if there is one. *)
Definition hide (sel : Item -> bool) (menu : list Li) : list Li :=
  default menu (hideFirst sel menu).

(** [document.getElementById(target).style.display = d], if the element
    exists. *)
Fixpoint showInLi (target d : string) (l : Li) : option Li :=
  match l with
  | MkLi i it old sub =>
      if bool_decide (i = Some target) then Some (MkLi i it (Some d) sub)
      else
        match
          (fix inList (ls : list Li) : option (list Li) :=
             match ls with
             | [] => None
             | x :: xs =>
                 match showInLi target d x with
                 | Some x' => Some (x' :: xs)
                 | None => option_map (cons x) (inList xs)
                 end
             end) sub
        with
        | Some sub' => Some (MkLi i it old sub')
        | None => None
        end
  end.

Fixpoint showFirst (target d : string) (menu : list Li) : option (list Li) :=
  match menu with
  | [] => None
  | x :: xs =>
      match showInLi target d x with
      | Some x' => Some (x' :: xs)
      | None => option_map (cons x) (showFirst target d xs)
      end
  end.

(** In the two functions below [userInfo] is what [getUserInfo]
    returns. *)
Definition updateAccessControlMenuItem
    (userInfo : option (gmap string value)) (menu : list Li) : list Li :=
  let superAdmin :=
    match userInfo with
    | Some u => strict_eq (field u "role") (VStr "Super Admin")
    | None => false
    end in
  default menu
    (showFirst "accessControlMenuItem" (if superAdmin then "block" else "none") menu).

Definition hideEmployeeMenuItems
    (userInfo : option (gmap string value)) (menu : list Li) : list Li :=
  match userInfo with
  | None => menu
  | Some u =>
      let userRole := orElse (field u "role") (VStr "") in
      let isEmployee := strict_eq userRole (VStr "Employee") in
      if negb isEmployee then menu
      else
        let menu :=
          match hideFirst (byLabel "Auditor's Dashboard") menu with
          | Some menu' => menu'
          | None => hide (byLabel "Auditors' Dashboard") menu
          end in
        let menu := hide (byLabel "Create New Audit") menu in
        let menu := hide (byLabel "Audit Distribution") menu in
        let menu := hide (byLabel "Improvement Corner") menu in
        let menu := hide (byLabel "Search") menu in
        let menu := hide (bySubmenuHref "scorecards.html") menu in
        let menu := hide (bySubmenuHref "user-management.html") menu in
        updateAccessControlMenuItem userInfo menu
  end.

(** What [loadSidebar] does with the menu once it is in the page. *)
Definition applyRoleGating
    (userInfo : option (gmap string value)) (menu : list Li) : list Li :=
  updateAccessControlMenuItem userInfo (hideEmployeeMenuItems userInfo menu).

(** *** Reading the menu *)

(** The name of an entry: its label, else the page it links to. *)
Definition entryName (it : Item) : string :=
  match ariaLabel it, href it with
  | Some l, _ => l
  | None, Some h => h
  | None, None => ""
  end.

(** The entries in document order, each with its inline display. *)
Fixpoint flattenLi (l : Li) : list (string * option string) :=
  match l with
  | MkLi _ it d sub =>
      (entryName it, d) ::
      (fix inList (ls : list Li) : list (string * option string) :=
         match ls with
         | [] => []
         | x :: xs => flattenLi x ++ inList xs
         end) sub
  end.

Definition flatten (menu : list Li) : list (string * option string) :=
  flat_map flattenLi menu.

(** The entries whose own inline display is 'none'. *)
Definition displayNone (menu : list Li) : list string :=
  map fst (List.filter (fun e => bool_decide (snd e = Some "none")) (flatten menu)).

(** The entries that the inline displays take off the page: an entry whose
    display is 'none', and with it every entry of its sub-menu.  [inside]
    tells whether an enclosing entry has the display 'none'. *)
Fixpoint hiddenInLi (inside : bool) (l : Li) : list string :=
  match l with
  | MkLi _ it d sub =>
      let gone := inside || bool_decide (d = Some "none") in
      (if gone then [entryName it] else []) ++
      (fix inList (ls : list Li) : list string :=
         match ls with
         | [] => []
         | x :: xs => hiddenInLi gone x ++ inList xs
         end) sub
  end.

Definition hidden (menu : list Li) : list string :=
  flat_map (hiddenInLi false) menu.

(** The inline display of the entry called [name]. *)
Definition displayOf (name : string) (menu : list Li) : option (option string) :=
  snd <$> List.find (fun e => String.eqb (fst e) name) (flatten menu).

(** The inline display of the first entry with the id [target]. *)
Fixpoint displayInLi (target : string) (l : Li) : option (option string) :=
  match l with
  | MkLi i it d sub =>
      if bool_decide (i = Some target) then Some d
      else
        (fix inList (ls : list Li) : option (option string) :=
           match ls with
           | [] => None
           | x :: xs =>
               match displayInLi target x with
               | Some r => Some r
               | None => inList xs
               end
           end) sub
  end.

Fixpoint displayById (target : string) (menu : list Li) : option (option string) :=
  match menu with
  | [] => None
  | x :: xs =>
      match displayInLi target x with
      | Some r => Some r
      | None => displayById target xs
      end
  end.

(** The names in [after] that are not in [before]. *)
Definition added (before after : list string) : list string :=
  List.filter (fun n => negb (existsb (String.eqb n) before)) after.

(** The entries whose display is 'none' in [after] and was not in
    [before]. *)
Definition setToNone (before after : list Li) : list string :=
  added (displayNone before) (displayNone after).

(** The entries hidden in [after] that were not hidden in [before]. *)
Definition newlyHidden (before after : list Li) : list string :=
  added (hidden before) (hidden after).

End Menu.

(** ** The saved sidebar state *)

Module SidebarState.

(** [localStorage.getItem("sidebarState") || "collapsed"] *)
Definition getSidebarState (storage : gmap string string) : string :=
  match storage !! "sidebarState" with
  | Some s => if String.eqb s "" then "collapsed" else s
  | None => "collapsed"
  end.

Definition saveSidebarState (state : string) (storage : gmap string string)
    : gmap string string :=
  <["sidebarState" := state]> storage.

(** Whether [loadSidebar] inserts the sidebar expanded. *)
Definition isExpanded (storage : gmap string string) : bool :=
  String.eqb (getSidebarState storage) "expanded".

End SidebarState.

(** ** Which pages get a sidebar *)

Module Pathname.

(** [pathname.split("/").pop()]: what follows the last slash.  [seen] is the
    segment read so far. *)
Fixpoint lastSegmentFrom (seen : string) (s : string) : string :=
  match s with
  | EmptyString => seen
  | String c s' =>
      if Ascii.eqb c "/" then lastSegmentFrom EmptyString s'
      else lastSegmentFrom (seen +:+ String c EmptyString) s'
  end.

Definition currentPage (pathname : string) : string :=
  lastSegmentFrom EmptyString pathname.

Definition pagesWithoutSidebar : list string := ["login.html"; "index.html"].

(** [init]: whether [loadSidebar] is called. *)
Definition init (pathname : string) : bool :=
  negb (existsb (String.eqb (currentPage pathname)) pagesWithoutSidebar).

End Pathname.

(** ** Painting the badges from the cache *)

Module CachePaint.

Import Cache Badges.


End CachePaint.

(** ** The update timers *)

(** [this.notificationUpdateIntervals]: the handle of the timer of each
    category, or null. *)
Record Intervals := {
  reversals : option positive;
  employeeReversals : option positive;
  acknowledgments : option positive
}.

(** The loader's handles and the timers that run in the window.  A handle
    is a positive integer. *)
Record TimerState := {
  notificationUpdateIntervals : Intervals;
  running : gset positive
}.

Module Timers.

Section WithWindow.

(** [setInterval] hands out an id; which one is the window's choice. *)
Variable newId : gset positive -> positive.

Definition setInterval (timers : gset positive) : positive * gset positive :=
  let h := newId timers in (h, {[h]} ∪ timers).

Definition clearInterval (h : positive) (timers : gset positive) : gset positive :=
  timers ∖ {[h]}.

(** [if (handle) { clearInterval(handle); handle = null }] for one category. *)
Definition clearOne (handle : option positive) (timers : gset positive)
    : gset positive :=
  match handle with
  | Some h => clearInterval h timers
  | None => timers
  end.

Definition clearNotificationUpdateIntervals (st : TimerState) : TimerState :=
  let handles := notificationUpdateIntervals st in
  let timers := clearOne (reversals handles) (running st) in
  let timers := clearOne (employeeReversals handles) timers in
  let timers := clearOne (acknowledgments handles) timers in
  {| notificationUpdateIntervals :=
       {| reversals := None; employeeReversals := None; acknowledgments := None |};
     running := timers |}.

Definition setupNotificationUpdateIntervals (st : TimerState) : TimerState :=
  let st := clearNotificationUpdateIntervals st in
  let '(h1, timers) := setInterval (running st) in
  let '(h2, timers) := setInterval timers in
  let '(h3, timers) := setInterval timers in
  {| notificationUpdateIntervals :=
       {| reversals := Some h1; employeeReversals := Some h2;
          acknowledgments := Some h3 |};
     running := timers |}.

End WithWindow.

(** The timers the loader holds a handle of. *)
Definition held (st : TimerState) : gset positive :=
  let handles := notificationUpdateIntervals st in
  let one (h : option positive) : gset positive :=
    match h with Some x => {[x]} | None => ∅ end in
  one (reversals handles) ∪ one (employeeReversals handles)
  ∪ one (acknowledgments handles).

End Timers.

(* ================================================================== *)
(** * Properties *)

(** ** Vocabulary of the statements *)

(** A value is one of the ten workflow-state labels. *)
Definition IsWorkflowLabel (v : value) : Prop :=
  exists l, In l workflowLabels /\ v = VStr l.

(** A field that holds text, or nothing that would be read as text: a
    string, or a falsy value (undefined, null, false, 0, NaN). *)
Definition textOrFalsy (v : value) : Prop :=
  match v with
  | VStr _ => True
  | _ => truthy v = false
  end.

(** A reviewer-name field that is absent (undefined or null) or blank. *)
Definition blankOrAbsent (v : value) : Prop :=
  match v with
  | VUndefined | VNull => True
  | VStr s => trim s = ""
  | _ => False
  end.

Definition stateField (r : gmap string value) : value :=
  field r "reversal_workflow_state".

(** The role of the current user; undefined when there is no user. *)
Definition roleOf (u : option (gmap string value)) : value :=
  match u with
  | Some x => field x "role"
  | None => VUndefined
  end.

(** The user after [getUserInfo]: one with a picture and no avatar has got
    the picture as avatar; any other user, and no user, is as before. *)
Definition migrated (u : option (gmap string value)) : option (gmap string value) :=
  match u with
  | Some x =>
      if truthy (field x "picture") && negb (truthy (field x "avatar"))
      then Some (<["avatar" := field x "picture"]> x)
      else Some x
  | None => None
  end.

(** The page after a call of [getUserInfo]: the item [userInfo] holds the
    migrated user, the other items and the badges are as they were. *)
Definition userRead (page : Browser) : Browser :=
  {| userInfo := migrated (userInfo page);
     localStorage := localStorage page;
     badges := badges page |}.

(** The three recomputations: the category, the try block, the operation
    and the setter of the badge ([userInfo] is the user the setter of the
    employee badge reads). *)
Definition recomputations :
    list (string * (Backend -> Z -> Update.M unit) * (Backend -> Z -> Update.M unit)
          * (option (gmap string value) -> number -> gmap string Badge -> gmap string Badge)) :=
  [ ("reversals",
     Recompute.pendingReversalsAttempt, Recompute.updatePendingReversalsCount,
     fun _ => Badges.setReversalBadgeCount);
    ("employeeReversals",
     Recompute.employeeReversalsAttempt, Recompute.updateEmployeeReversalUpdatesCount,
     Badges.setEmployeeReversalBadgeCount);
    ("acknowledgments",
     Recompute.pendingAcknowledgmentsAttempt, Recompute.updatePendingAcknowledgmentsCount,
     fun _ => Badges.setAcknowledgmentBadgeCount) ].

(** Setting the display of the first entry with an id: it succeeds exactly
    when there is such an entry, and that entry then has the display. *)
Definition ShownIn (target d : string) (before : option (option string))
    (after : option (option (option string))) : Prop :=
  match after with
  | Some r => r = Some (Some d)
  | None => before = None
  end.

(** ** Sample records *)

Module Samples.

(** The state the loader itself assigns to a request without a current
    workflow row ([workflowStateMap.get(id) || 'submitted']). *)
Definition submitted : gmap string value :=
  {[ "reversal_workflow_state" := VStr "submitted" ]}.

Definition qaReviewNamed : gmap string value :=
  <[ "team_lead_reviewed_by" := VStr "Dana" ]>
    {[ "reversal_workflow_state" := VStr "qa_review" ]}.

Definition qaReviewBlankName : gmap string value :=
  <[ "team_lead_reviewed_by" := VStr "   " ]>
    {[ "reversal_workflow_state" := VStr "qa_review" ]}.

Definition qaReviewLeadApproved : gmap string value :=
  <[ "team_lead_approved" := VBool true ]>
    {[ "reversal_workflow_state" := VStr "qa_review" ]}.

Definition approvedLeadFlag1 : gmap string value :=
  <[ "teamLeadApproved" := VStr "1" ]>
    {[ "reversal_workflow_state" := VStr "approved" ]}.

Definition approvedLeadYes : gmap string value :=
  <[ "team_lead_approved" := VStr "yes" ]>
    {[ "reversal_workflow_state" := VStr "approved" ]}.

Definition approvedLeadFalseText : gmap string value :=
  <[ "team_lead_approved" := VStr "false" ]>
    {[ "reversal_workflow_state" := VStr "approved" ]}.

Definition legacyApproved1 : gmap string value :=
  <[ "reversal_approved" := VStr "1" ]>
    {[ "acknowledgement_status" := VStr "Pending" ]}.

Definition legacyApprovedYes : gmap string value :=
  {[ "reversal_approved" := VStr "yes" ]}.

Definition legacyApprovedEmpty : gmap string value :=
  {[ "reversal_approved" := VStr "" ]}.

Definition legacyStatusText : gmap string value :=
  {[ "acknowledgement_status" := VStr "Reversal_Approved" ]}.

Definition legacyStatusNumber : gmap string value :=
  {[ "acknowledgement_status" := VNum (Int 5) ]}.

Definition qaReviewNumberName : gmap string value :=
  <[ "team_lead_reviewed_by" := VNum (Int 5) ]>
    {[ "reversal_workflow_state" := VStr "qa_review" ]}.

Definition leadApprovedStatusNumber : gmap string value :=
  <[ "team_lead_approved" := VBool true ]>
    {[ "acknowledgement_status" := VNum (Int 5) ]}.

End Samples.

(** ** Sample pages and backends *)

Module Pages.

Import Cache Badges.

Definition userA : option (gmap string value) :=
  Some {[ "email" := VStr "a@x.com" ]}.

Definition hiddenBadge : Badge := {| textContent := "0"; display := "none" |}.

(** The three badges as the sidebar markup has them. *)
Definition badges0 : gmap string Badge :=
  <["reversalNotificationBadge" := hiddenBadge]>
    (<["employeeReversalNotificationBadge" := hiddenBadge]>
       {[ "acknowledgmentNotificationBadge" := hiddenBadge ]}).

(** A page of user a@x.com on which the count 5 was cached, for the three
    categories, when the clock showed 1000. *)
Definition cachedAt1000 : Browser :=
  {| userInfo := userA;
     localStorage :=
       setCachedNotificationCount userA 1000 "reversals" (Int 5)
         (setCachedNotificationCount userA 1000 "employeeReversals" (Int 5)
            (setCachedNotificationCount userA 1000 "acknowledgments" (Int 5) ∅));
     badges := badges0 |}.

Definition employeeA : option (gmap string value) :=
  Some (<[ "role" := VStr "Employee" ]> {[ "email" := VStr "a@x.com" ]}).


(** A backend whose scorecards query rejects. *)
Definition unreachable : Backend :=
  {| supabaseClient := true;
     scorecards := Rejects;
     combinedReversals := [];
     respondedCount := fun _ _ _ => Rejects;
     acknowledgements := fun _ _ => Rejects |}.

Definition superAdmin : option (gmap string value) :=
  Some {[ "role" := VStr "Super Admin" ]}.

Definition auditor : option (gmap string value) :=
  Some {[ "role" := VStr "Auditor" ]}.

(** The user a@x.com as an older login stored it: a picture and no
    avatar. *)
Definition userWithPicture : option (gmap string value) :=
  Some (<[ "picture" := VStr "a.png" ]> {[ "email" := VStr "a@x.com" ]}).

(** The page of that user with the count 5 cached when the clock showed
    1000. *)
Definition pictureCachedAt1000 : Browser :=
  {| userInfo := userWithPicture;
     localStorage :=
       setCachedNotificationCount userWithPicture 1000 "reversals" (Int 5) ∅;
     badges := badges0 |}.

End Pages.

(** ** Further vocabulary *)

(** The three notification categories. *)
Definition categories : list string :=
  ["reversals"; "employeeReversals"; "acknowledgments"].

(** An item of local storage that belongs to the notification cache. *)
Definition isCacheItem (key : string) : bool :=
  startsWith key "notification_count_".

Module MorePages.

Import Cache.

(** A storage whose reversal entry has a timestamp that is no number. *)
Definition corruptTimestamp : gmap string string :=
  <["notification_count_reversals_timestamp_a@x.com" := "soon"]>
    {[ "notification_count_reversals_a@x.com" := "12" ]}.

(** A storage that holds a count without its timestamp. *)
Definition orphanCount : gmap string string :=
  {[ "notification_count_reversals_a@x.com" := "12" ]}.

End MorePages.

(** The email the acknowledgment count filters by:
    [(userInfo.email || '').toLowerCase().trim()], or '' without a user. *)
Definition currentEmail (u : option (gmap string value)) : result string :=
  match u with
  | Some x =>
      lower <- callToLowerCase (orElse (field x "email") (VStr "")) ;;
      Ok (trim lower)
  | None => Ok ""
  end.

(** A row whose employee_email, lower-cased and trimmed, is [email]. *)
Definition ownRow (email : string) (audit : gmap string value) : bool :=
  match field audit "employee_email" with
  | VStr s => String.eqb (trim (toLowerCase s)) email
  | _ => false
  end.

Module MoreSamples.

(** An audit row of a@x.com that awaits acknowledgment. *)
Definition ownPendingRow : gmap string value :=
  <[ "acknowledgement_status" := VStr "Pending" ]>
    {[ "employee_email" := VStr " A@X.com " ]}.

(** A backend with one scorecard table and two reversals, one of them
    pending. *)
Definition oneTable : Backend :=
  {| supabaseClient := true;
     scorecards := Resolves (Some ["audits"]) false;
     combinedReversals := [Samples.submitted; Samples.approvedLeadYes];
     respondedCount := fun _ _ _ => Resolves (Some (Int 2)) false;
     acknowledgements := fun _ _ => Resolves (Some [ownPendingRow]) false |}.

(** The same with a record that the pending predicate cannot read. *)
Definition oneUnreadable : Backend :=
  {| supabaseClient := true;
     scorecards := Resolves (Some ["audits"]) false;
     combinedReversals := [Samples.submitted; Samples.legacyStatusNumber];
     respondedCount := fun _ _ _ => Resolves (Some (Int 2)) false;
     acknowledgements := fun _ _ => Resolves (Some [ownPendingRow]) false |}.

(** A page of user a@x.com with an empty cache. *)
Definition freshPage : Browser :=
  {| userInfo := Pages.userA; localStorage := ∅; badges := Pages.badges0 |}.

Definition employeePage : Browser :=
  {| userInfo := Pages.employeeA; localStorage := ∅; badges := Pages.badges0 |}.

(** A page of user a@x.com with the acknowledgment count 5 cached when the
    clock showed 1000. *)
Definition ackCachedAt1000 : Browser :=
  {| userInfo := Pages.userA;
     localStorage :=
       Cache.setCachedNotificationCount Pages.userA 1000 "acknowledgments" (Int 5) ∅;
     badges := Pages.badges0 |}.

(** A backend whose scorecards query answers with an error. *)
Definition scorecardsError : Backend :=
  {| supabaseClient := true;
     scorecards := Resolves None true;
     combinedReversals := [];
     respondedCount := fun _ _ _ => Rejects;
     acknowledgements := fun _ _ => Rejects |}.

End MoreSamples.

(** The legacy status carries one of the two composite markers. *)
Definition hasPendingMarker (ackStatus : string) : bool :=
  includes ackStatus "pending - reversal_approved"
  || includes ackStatus "pending - reversal_rejected".

(** A reviewer-name field that names someone: text that is not blank. *)
Definition namesReviewer (v : value) : bool :=
  match v with
  | VStr s => negb (String.eqb (trim s) "")
  | _ => false
  end.

Module MoreRecords.

Definition rejectedInQa : gmap string value :=
  <[ "teamLeadApproved" := VStr "0" ]>
    (<[ "team_lead_approved" := VBool true ]>
       {[ "reversal_workflow_state" := VStr "qa_review" ]}).

Definition markedApproved : gmap string value :=
  <[ "reversal_approved" := VBool true ]>
    {[ "acknowledgement_status" := VStr "Pending - Reversal_Approved" ]}.

Definition decidedApproved : gmap string value :=
  <[ "reversal_approved" := VBool true ]>
    (<[ "team_lead_approved" := VBool true ]>
       {[ "reversal_workflow_state" := VStr "approved" ]}).

Definition cqcNamed : gmap string value :=
  <[ "teamLeadReviewedBy" := VStr " Dana " ]>
    {[ "reversal_workflow_state" := VStr "cqc_review" ]}.

End MoreRecords.

(** The entries of a menu in document order: id, item and display. *)
Fixpoint entriesOfLi (l : Li) : list (option string * Item * option string) :=
  match l with
  | MkLi i it d sub =>
      (i, it, d) ::
      (fix inList (ls : list Li) : list (option string * Item * option string) :=
         match ls with
         | [] => []
         | x :: xs => entriesOfLi x ++ inList xs
         end) sub
  end.

Definition entriesOf (menu : list Li) : list (option string * Item * option string) :=
  flat_map entriesOfLi menu.

(** An entry that the role gating may touch: the Access Control entry, or
    an entry whose item one of the selectors of [hideEmployeeMenuItems]
    matches. *)
Definition gatedEntry (i : option string) (it : Item) : bool :=
  bool_decide (i = Some "accessControlMenuItem")
  || Menu.byLabel "Auditor's Dashboard" it
  || Menu.byLabel "Auditors' Dashboard" it
  || Menu.byLabel "Create New Audit" it
  || Menu.byLabel "Audit Distribution" it
  || Menu.byLabel "Improvement Corner" it
  || Menu.byLabel "Search" it
  || Menu.bySubmenuHref "scorecards.html" it
  || Menu.bySubmenuHref "user-management.html" it.

(** Two entries with the same id and item, and the same display unless
    [touch] allows a change. *)
Definition sameEntryBut (touch : option string -> Item -> bool)
    (a b : option string * Item * option string) : Prop :=
  fst a = fst b /\
  (snd a = snd b \/ touch (fst (fst a)) (snd (fst a)) = true).

(** [after] has the entries of [before], in the same order, with the same
    displays except where [touch] allows a change. *)
Definition SameMenuBut (touch : option string -> Item -> bool)
    (before after : list Li) : Prop :=
  Forall2 (sameEntryBut touch) (entriesOf before) (entriesOf after).

Module MoreMenus.

(** A menu with a second Search entry and a Profile link of its own. *)
Definition custom : list Li :=
  [ Menu.entry (Menu.button "Search");
    MkLi None (Menu.button "Account") None
      [ Menu.entry (Menu.sublink "profile.html");
        MkLi (Some "accessControlMenuItem") (Menu.sublink "access-control.html")
             None [] ];
    Menu.entry (Menu.button "Search") ].

End MoreMenus.

(** A file name: text without a slash. *)
Fixpoint slashFree (s : string) : bool :=
  match s with
  | EmptyString => true
  | String c s' => negb (Ascii.eqb c "/") && slashFree s'
  end.

Module MoreTimers.

(** A loader without timers in a window where timer 5 runs. *)
Definition idle : TimerState :=
  {| notificationUpdateIntervals :=
       {| reversals := None; employeeReversals := None; acknowledgments := None |};
     running := {[ 5%positive ]} |}.

End MoreTimers.

(** A record whose four text fields (the two reviewer names and the two
    legacy statuses) hold text or nothing. *)
Definition textFieldsReadable (r : gmap string value) : Prop :=
  textOrFalsy (field r "team_lead_reviewed_by") /\
  textOrFalsy (field r "teamLeadReviewedBy") /\
  textOrFalsy (field r "acknowledgement_status") /\
  textOrFalsy (field r "acknowledgementStatus").

Section Classifier.

Implicit Types (r : gmap string value) (v a b : value) (s : string).

Lemma strict_eq_VStr v s : strict_eq v (VStr s) = true -> v = VStr s.
Proof.
  destruct v as [| |b|n|t]; simpl; try discriminate.
  intros H. apply String.eqb_eq in H. now subst.
Qed.

Lemma strict_eq_refl_VStr s : strict_eq (VStr s) (VStr s) = true.
Proof. simpl. apply String.eqb_refl. Qed.

Lemma andTrim_textOrFalsy v :
  textOrFalsy v -> exists w, andTrim v = Ok w.
Proof.
  unfold andTrim. destruct v as [| |b|n|s]; simpl; intros H;
    try rewrite H; eauto.
  destruct (negb (String.eqb s "")); eauto.
Qed.

Lemma andTrim_blankOrAbsent v :
  blankOrAbsent v -> exists w, andTrim v = Ok w /\ truthy w = false.
Proof.
  unfold andTrim. destruct v as [| |b|n|s]; simpl; try contradiction; eauto.
  intros H. destruct (String.eqb s "") eqn:E; simpl.
  - exists (VStr s). simpl. now rewrite E.
  - exists (VStr (trim s)). rewrite H. auto.
Qed.

Lemma orElse_text a b :
  textOrFalsy a -> (exists s, b = VStr s) -> exists s, orElse a b = VStr s.
Proof.
  unfold orElse. intros Ha [t ->].
  destruct a as [| |x|n|s]; simpl in *; try rewrite Ha; eauto.
  destruct (negb (String.eqb s "")); eauto.
Qed.

Lemma ackStatusOf_total r :
  textOrFalsy (field r "acknowledgement_status") ->
  textOrFalsy (field r "acknowledgementStatus") ->
  exists s, ackStatusOf r = Ok s.
Proof.
  intros H1 H2. unfold ackStatusOf.
  destruct (orElse_text (field r "acknowledgementStatus") (VStr "") H2)
    as [s2 E2]; [eauto|].
  assert (exists s, orElse (orElse (field r "acknowledgement_status")
                                   (field r "acknowledgementStatus"))
                           (VStr "") = VStr s) as [s E].
  { unfold orElse at 2.
    destruct (truthy (field r "acknowledgement_status")) eqn:T.
    - apply orElse_text; eauto.
    - unfold orElse in E2 |- *.
      destruct (truthy (field r "acknowledgementStatus")); eauto. }
  rewrite E. simpl. eauto.
Qed.

Lemma legacyKeyword_label s l : legacyKeyword s = Some l -> In l workflowLabels.
Proof.
  unfold legacyKeyword.
  repeat match goal with
         | |- context [if ?b then _ else _] => destruct b
         end; intros H; inversion H; subst; simpl; tauto.
Qed.

Lemma legacyApproved_label v : In (legacyApproved v) workflowLabels.
Proof.
  unfold legacyApproved.
  repeat match goal with
         | |- context [if ?b then _ else _] => destruct b
         end; simpl; tauto.
Qed.

(** The classified state is qa_review or cqc_review only if the list of
    pending states already contains it. *)
Lemma review_states_are_pending v :
  arrayIncludes pendingStates v = false ->
  strict_eq v (VStr "qa_review") || strict_eq v (VStr "cqc_review") = false.
Proof.
  unfold arrayIncludes, pendingStates. simpl existsb. intros H.
  repeat (apply orb_false_elim in H; destruct H as [? H]).
  apply orb_false_intro; assumption.
Qed.

End Classifier.

(** ** The workflow-state classifier *)

Section ClassifierClaims.

Implicit Types (r : gmap string value) (v : value) (s : string).

(** C1 (as amended).  For a record whose explicit state field is present
    (truthy) and whose reviewer-name fields hold text or nothing, the
    classifier returns team_lead_review, team_lead_rejected or the explicit
    state itself, unchanged; so the result is one of the ten labels whenever
    the explicit state is one of them. *)
Theorem explicit_state_classification r :
  truthy (stateField r) = true ->
  textOrFalsy (field r "team_lead_reviewed_by") ->
  textOrFalsy (field r "teamLeadReviewedBy") ->
  exists v, getReversalWorkflowState r = Ok v /\
    (v = VStr "team_lead_review" \/ v = VStr "team_lead_rejected"
     \/ v = stateField r) /\
    (IsWorkflowLabel (stateField r) -> IsWorkflowLabel v).
Proof.
  intros Hs H1 H2. unfold stateField in *.
  assert (L1 : IsWorkflowLabel (VStr "team_lead_review"))
    by (exists "team_lead_review"; simpl; tauto).
  assert (L2 : IsWorkflowLabel (VStr "team_lead_rejected"))
    by (exists "team_lead_rejected"; simpl; tauto).
  unfold getReversalWorkflowState. rewrite Hs.
  destruct (andTrim_textOrFalsy _ H1) as [w1 E1].
  destruct (andTrim_textOrFalsy _ H2) as [w2 E2].
  rewrite E1, E2.
  cbv zeta.
  destruct (isTrueFlag (field r "team_lead_approved")
            || isTrueFlag (field r "teamLeadApproved")); cbn [orb rbind];
  destruct (isFalseFlag (field r "team_lead_approved")
            || isFalseFlag (field r "teamLeadApproved")); cbn [orb rbind];
  destruct (strict_eq (field r "reversal_workflow_state") (VStr "qa_review")
            || strict_eq (field r "reversal_workflow_state") (VStr "cqc_review"));
  cbn [andb negb truthy rbind]; eauto 10;
  destruct (truthy w1) eqn:T1; cbn [andb negb rbind]; rewrite ?T1;
    cbn [negb]; eauto 10;
  destruct (truthy w2) eqn:T2; cbn [andb negb rbind]; eauto 10.
Qed.

(** C3 (as amended).  When team_lead_approved, under either spelling, is one
    of true, 'true', 1, '1', the final decision is null or absent, and the
    record either has an explicit state or keeps text (or nothing) in its
    legacy status fields, the pending predicate returns true. *)
Theorem team_lead_approved_undecided_is_pending r :
  isTrueFlag (field r "team_lead_approved")
  || isTrueFlag (field r "teamLeadApproved") = true ->
  (field r "reversal_approved" = VNull \/ field r "reversal_approved" = VUndefined) ->
  (truthy (stateField r) = true \/
   (textOrFalsy (field r "acknowledgement_status") /\
    textOrFalsy (field r "acknowledgementStatus"))) ->
  isPendingWorkflowState r = Ok true.
Proof.
  intros Ha Hd Hs. unfold stateField in *.
  assert (E : exists v, getReversalWorkflowState r = Ok v).
  { unfold getReversalWorkflowState.
    destruct (truthy (field r "reversal_workflow_state")) eqn:T.
    - rewrite Ha. cbn [orb rbind].
      repeat match goal with
             | |- context [if ?b then _ else _] => destruct b
             end; eauto.
    - destruct Hs as [Hs | [H1 H2]]; [discriminate|].
      destruct (ackStatusOf_total r H1 H2) as [t ->]. cbn [rbind].
      destruct (legacyKeyword t); eauto. }
  destruct E as [v E]. unfold isPendingWorkflowState. rewrite E. cbn [rbind].
  destruct (arrayIncludes pendingStates v); [reflexivity|].
  rewrite Ha. destruct Hd as [-> | ->]; reflexivity.
Qed.

(** C4 (as amended).  A record whose explicit state is 'qa_review', whose
    reviewer-name fields are absent or blank, and whose team_lead_approved
    field (either spelling) records neither approval nor rejection,
    classifies as team_lead_review. *)
Theorem qa_review_unreviewed_is_team_lead_review r :
  stateField r = VStr "qa_review" ->
  blankOrAbsent (field r "team_lead_reviewed_by") ->
  blankOrAbsent (field r "teamLeadReviewedBy") ->
  isTrueFlag (field r "team_lead_approved")
  || isTrueFlag (field r "teamLeadApproved") = false ->
  isFalseFlag (field r "team_lead_approved")
  || isFalseFlag (field r "teamLeadApproved") = false ->
  getReversalWorkflowState r = Ok (VStr "team_lead_review").
Proof.
  intros Hs H1 H2 Ha Hr. unfold stateField in *.
  unfold getReversalWorkflowState. rewrite Hs, Ha, Hr.
  destruct (andTrim_blankOrAbsent _ H1) as [w1 [E1 T1]].
  destruct (andTrim_blankOrAbsent _ H2) as [w2 [E2 T2]].
  rewrite E1. cbn. rewrite T1, E2. cbn. rewrite T2. reflexivity.
Qed.

(** C5 (as amended).  With no explicit state and a legacy status that
    matches no keyword, the classifier decides on reversal_approved alone:
    null or absent gives pending; true, 'true', 1, '1' give approved; false,
    'false', 0, '0' give rejected; every other value gives pending. *)
Theorem legacy_approved_mapping r s :
  truthy (stateField r) = false ->
  ackStatusOf r = Ok s ->
  legacyKeyword s = None ->
  let approved := field r "reversal_approved" in
  let out := getReversalWorkflowState r in
  (approved = VNull \/ approved = VUndefined -> out = Ok (VStr "pending")) /\
  (approved = VBool true \/ approved = VStr "true" \/
   approved = VNum (Int 1) \/ approved = VStr "1" -> out = Ok (VStr "approved")) /\
  (approved = VBool false \/ approved = VStr "false" \/
   approved = VNum (Int 0) \/ approved = VStr "0" -> out = Ok (VStr "rejected")) /\
  (approved <> VNull -> approved <> VUndefined ->
   isTrueFlag approved = false -> isFalseFlag approved = false ->
   out = Ok (VStr "pending")).
Proof.
  intros Hs Hk Hn approved out. unfold stateField in *.
  assert (E : out = Ok (VStr (legacyApproved approved))).
  { subst out. unfold getReversalWorkflowState. rewrite Hs, Hk. cbn [rbind].
    now rewrite Hn. }
  rewrite E. clearbody approved. clear.
  repeat split.
  - intros [-> | ->]; reflexivity.
  - intros [-> | [-> | [-> | ->]]]; reflexivity.
  - intros [-> | [-> | [-> | ->]]]; reflexivity.
  - intros N1 N2 T F. unfold legacyApproved. rewrite T, F.
    destruct approved; try reflexivity; congruence.
Qed.

(** C9.  The last clause of the pending predicate never decides: on every
    record the predicate equals its variant without that clause. *)
Theorem isPendingWorkflowState_last_clause_redundant r :
  isPendingWorkflowState r = isPendingWorkflowState_withoutLastClause r.
Proof.
  unfold isPendingWorkflowState, isPendingWorkflowState_withoutLastClause.
  destruct (getReversalWorkflowState r) as [v|e]; [|reflexivity]. cbn [rbind].
  destruct (arrayIncludes pendingStates v) eqn:P; [reflexivity|].
  rewrite (review_states_are_pending v P).
  reflexivity.
Qed.

(** C10 (as amended).  For a record with no explicit state whose legacy
    status fields hold text or nothing, the classifier returns one of the
    ten labels, whatever reversal_approved holds. *)
Theorem legacy_path_returns_label r :
  truthy (stateField r) = false ->
  textOrFalsy (field r "acknowledgement_status") ->
  textOrFalsy (field r "acknowledgementStatus") ->
  exists l, In l workflowLabels /\ getReversalWorkflowState r = Ok (VStr l).
Proof.
  intros Hs H1 H2. unfold stateField in *.
  unfold getReversalWorkflowState. rewrite Hs.
  destruct (ackStatusOf_total r H1 H2) as [t ->]. cbn [rbind].
  destruct (legacyKeyword t) as [l|] eqn:K.
  - exists l. split; [eapply legacyKeyword_label|]; eauto.
  - eexists. split; [apply legacyApproved_label|reflexivity].
Qed.

End ClassifierClaims.

(** ** The classifier on the sample records *)

Section ClassifierExamples.

Lemma submitted_is_no_label : ~ IsWorkflowLabel (VStr "submitted").
Proof.
  intros [l [Hin E]]. injection E as <-. simpl in Hin.
  repeat (destruct Hin as [Hin | Hin]; [discriminate Hin|]). exact Hin.
Qed.

(** C1 fails as stated: the explicit state 'submitted' is returned
    verbatim, and it is none of the ten labels. *)
Lemma explicit_state_submitted_returned_verbatim :
  truthy (stateField Samples.submitted) = true /\
  getReversalWorkflowState Samples.submitted = Ok (VStr "submitted") /\
  ~ IsWorkflowLabel (VStr "submitted").
Proof.
  split; [reflexivity|]. split; [reflexivity|]. exact submitted_is_no_label.
Qed.

Lemma explicit_state_classification_witness :
  exists v, getReversalWorkflowState Samples.qaReviewNamed = Ok v /\
    (v = VStr "team_lead_review" \/ v = VStr "team_lead_rejected"
     \/ v = stateField Samples.qaReviewNamed) /\
    (IsWorkflowLabel (stateField Samples.qaReviewNamed) -> IsWorkflowLabel v).
Proof.
  apply (explicit_state_classification Samples.qaReviewNamed).
  - reflexivity.
  - vm_compute. exact I.
  - vm_compute. reflexivity.
Defined.

(** A reviewer name that is not text has no trim: the classifier throws. *)
Example explicit_state_number_name_throws :
  truthy (stateField Samples.qaReviewNumberName) = true /\
  getReversalWorkflowState Samples.qaReviewNumberName = Throw TypeError.
Proof. split; reflexivity. Qed.

(** C3 fails as stated: 'yes' is truthy, the final decision is absent, and
    the record is not pending. *)
Lemma truthy_team_lead_approved_not_pending :
  truthy (field Samples.approvedLeadYes "team_lead_approved") = true /\
  field Samples.approvedLeadYes "reversal_approved" = VUndefined /\
  isPendingWorkflowState Samples.approvedLeadYes = Ok false.
Proof. repeat split; reflexivity. Qed.

(** The text 'false' is truthy as well, and the classifier reads it as a
    rejection by the team lead. *)
Example false_text_reads_as_rejection :
  truthy (field Samples.approvedLeadFalseText "team_lead_approved") = true /\
  getReversalWorkflowState Samples.approvedLeadFalseText
    = Ok (VStr "team_lead_rejected") /\
  isPendingWorkflowState Samples.approvedLeadFalseText = Ok false.
Proof. repeat split; reflexivity. Qed.

(** Without an explicit state, a legacy status that is not text makes the
    predicate throw, whatever the team lead recorded. *)
Example lead_approved_unreadable_status_throws :
  isTrueFlag (field Samples.leadApprovedStatusNumber "team_lead_approved") = true /\
  field Samples.leadApprovedStatusNumber "reversal_approved" = VUndefined /\
  isPendingWorkflowState Samples.leadApprovedStatusNumber = Throw TypeError.
Proof. repeat split; reflexivity. Qed.

Lemma team_lead_approved_undecided_is_pending_witness :
  isPendingWorkflowState Samples.approvedLeadFlag1 = Ok true.
Proof.
  apply (team_lead_approved_undecided_is_pending Samples.approvedLeadFlag1).
  - reflexivity.
  - right. reflexivity.
  - left. reflexivity.
Defined.

(** C4 fails as stated: with no reviewer name but a recorded team-lead
    approval the state qa_review is kept. *)
Lemma qa_review_kept_when_lead_approved :
  stateField Samples.qaReviewLeadApproved = VStr "qa_review" /\
  blankOrAbsent (field Samples.qaReviewLeadApproved "team_lead_reviewed_by") /\
  blankOrAbsent (field Samples.qaReviewLeadApproved "teamLeadReviewedBy") /\
  getReversalWorkflowState Samples.qaReviewLeadApproved = Ok (VStr "qa_review").
Proof. repeat split; reflexivity. Qed.

Lemma qa_review_unreviewed_is_team_lead_review_witness :
  getReversalWorkflowState Samples.qaReviewBlankName
    = Ok (VStr "team_lead_review").
Proof.
  apply (qa_review_unreviewed_is_team_lead_review Samples.qaReviewBlankName).
  - reflexivity.
  - vm_compute. reflexivity.
  - vm_compute. exact I.
  - reflexivity.
  - reflexivity.
Defined.

(** C5 fails as stated: 'yes' is truthy and gives pending, not approved;
    the empty text is falsy and gives pending, not rejected. *)
Lemma legacy_truthy_approved_gives_pending :
  truthy (stateField Samples.legacyApprovedYes) = false /\
  ackStatusOf Samples.legacyApprovedYes = Ok "" /\
  legacyKeyword "" = None /\
  truthy (field Samples.legacyApprovedYes "reversal_approved") = true /\
  getReversalWorkflowState Samples.legacyApprovedYes = Ok (VStr "pending").
Proof. repeat split; reflexivity. Qed.

Example legacy_falsy_approved_gives_pending :
  truthy (field Samples.legacyApprovedEmpty "reversal_approved") = false /\
  getReversalWorkflowState Samples.legacyApprovedEmpty = Ok (VStr "pending").
Proof. repeat split; reflexivity. Qed.

Lemma legacy_approved_mapping_witness :
  getReversalWorkflowState Samples.legacyApproved1 = Ok (VStr "approved").
Proof.
  apply (legacy_approved_mapping Samples.legacyApproved1 "pending").
  - reflexivity.
  - reflexivity.
  - reflexivity.
  - right. right. right. reflexivity.
Defined.

(** C10 fails as stated: a number in the legacy status field has no
    toLowerCase, and the classifier throws instead of returning a label. *)
Lemma legacy_status_number_throws :
  truthy (stateField Samples.legacyStatusNumber) = false /\
  getReversalWorkflowState Samples.legacyStatusNumber = Throw TypeError.
Proof. split; reflexivity. Qed.

Lemma legacy_path_returns_label_witness :
  exists l, In l workflowLabels /\
    getReversalWorkflowState Samples.legacyStatusText = Ok (VStr l).
Proof.
  apply (legacy_path_returns_label Samples.legacyStatusText).
  - reflexivity.
  - vm_compute. exact I.
  - vm_compute. reflexivity.
Defined.

(** Property 4 of the specification, on the legacy field alone. *)
Example legacy_reversal_approved_is_approved :
  getReversalWorkflowState {[ "acknowledgement_status" := VStr "reversal_approved" ]}
  = Ok (VStr "approved").
Proof. reflexivity. Qed.

End ClassifierExamples.

(** ** Numbers as text *)

Section NumberText.

Lemma digitValue_digitChar d :
  0 <= d < 10 -> digitValue (digitChar d) = Some d.
Proof.
  intros H.
  assert (C : d = 0 \/ d = 1 \/ d = 2 \/ d = 3 \/ d = 4 \/
              d = 5 \/ d = 6 \/ d = 7 \/ d = 8 \/ d = 9) by lia.
  repeat (destruct C as [-> | C]; [reflexivity|]). subst. reflexivity.
Qed.

Lemma digitChar_plain d :
  0 <= d < 10 ->
  isWhiteSpace (digitChar d) = false /\
  digitChar d <> "-"%char /\ digitChar d <> "+"%char.
Proof.
  intros H.
  assert (C : d = 0 \/ d = 1 \/ d = 2 \/ d = 3 \/ d = 4 \/
              d = 5 \/ d = 6 \/ d = 7 \/ d = 8 \/ d = 9) by lia.
  repeat (destruct C as [-> | C]; [repeat split; discriminate|]).
  subst. repeat split; discriminate.
Qed.

(** Reading back the digits written in front of [acc] resumes at [n]. *)
Lemma parseDigits_digitsAcc fuel : forall n acc,
  0 <= n < 2 ^ (Z.of_nat fuel + 1) ->
  parseDigits 0 (digitsAcc fuel n acc) = parseDigits n acc.
Proof.
  induction fuel as [|fuel IH]; intros n acc Hn.
  - assert (n < 10) by (change (2 ^ (Z.of_nat 0 + 1)) with 2 in Hn; lia).
    cbn [digitsAcc]. destruct (Z.ltb_spec n 10); [|lia].
    cbn [parseDigits]. rewrite digitValue_digitChar by (apply Z.mod_pos_bound; lia).
    f_equal. rewrite Z.mod_small; lia.
  - cbn [digitsAcc]. destruct (Z.ltb_spec n 10) as [Hlt | Hge].
    + cbn [parseDigits].
      rewrite digitValue_digitChar by (apply Z.mod_pos_bound; lia).
      f_equal. rewrite Z.mod_small; lia.
    + rewrite IH.
      * cbn [parseDigits].
        rewrite digitValue_digitChar by (apply Z.mod_pos_bound; lia).
        f_equal. pose proof (Z.div_mod n 10). lia.
      * replace (Z.of_nat (S fuel) + 1) with (Z.succ (Z.of_nat fuel + 1)) in Hn by lia.
        rewrite Z.pow_succ_r in Hn by lia.
        split; [apply Z.div_pos; lia|].
        apply Z.div_lt_upper_bound; lia.
Qed.

Lemma digitsAcc_head fuel : forall n acc,
  exists d rest, 0 <= d < 10 /\ digitsAcc fuel n acc = String (digitChar d) rest.
Proof.
  induction fuel as [|fuel IH]; intros n acc; cbn [digitsAcc].
  - exists (n mod 10), acc. split; [apply Z.mod_pos_bound; lia|].
    now destruct (n <? 10).
  - destruct (n <? 10); [|apply IH].
    exists (n mod 10), acc. split; [apply Z.mod_pos_bound; lia|reflexivity].
Qed.

Lemma parseDigits_digits n : 0 <= n -> parseDigits 0 (digits n) = n.
Proof.
  intros Hn. unfold digits. rewrite parseDigits_digitsAcc; [reflexivity|].
  split; [assumption|].
  destruct (Z.eq_dec n 0) as [-> | Hz]; [reflexivity|].
  rewrite Z2Nat.id by apply Z.log2_nonneg.
  replace (Z.log2 n + 1) with (Z.succ (Z.log2 n)) by lia.
  apply Z.log2_spec. lia.
Qed.

Lemma parseInt_digits n : 0 <= n -> parseInt (digits n) = Int n.
Proof.
  intros Hn. pose proof (parseDigits_digits n Hn) as P.
  unfold digits in *.
  destruct (digitsAcc_head (Z.to_nat (Z.log2 n)) n EmptyString)
    as (d & rest & Hd & E).
  rewrite E in *. destruct (digitChar_plain d Hd) as (W & Hm & Hp).
  unfold parseInt. cbn [trimStart]. rewrite W.
  assert (S : match String (digitChar d) rest with
              | String "-"%char b => (-1, b)
              | String "+"%char b => (1, b)
              | _ => (1, String (digitChar d) rest)
              end = (1, String (digitChar d) rest)).
  { destruct (digitChar d) as [[] [] [] [] [] [] [] []];
      first [reflexivity | exfalso; apply Hm; reflexivity
             | exfalso; apply Hp; reflexivity]. }
  rewrite S. rewrite (digitValue_digitChar d Hd). rewrite P. f_equal. lia.
Qed.

(** [parseInt(z.toString(), 10) = z] for every integer. *)
Lemma parseInt_toString z : parseInt (toString (Int z)) = Int z.
Proof.
  unfold toString. destruct (Z.ltb_spec z 0) as [Hneg | Hpos].
  - pose proof (parseDigits_digits (- z) ltac:(lia)) as P.
    destruct (digitsAcc_head (Z.to_nat (Z.log2 (- z))) (- z) EmptyString)
      as (d & rest & Hd & E).
    unfold digits in *. rewrite E in *.
    unfold parseInt. cbn [trimStart].
    change (isWhiteSpace "-") with false. cbv iota.
    rewrite (digitValue_digitChar d Hd), P. f_equal. lia.
  - now apply parseInt_digits.
Qed.

Lemma toString_not_empty x : String.eqb (toString x) "" = false.
Proof.
  destruct x as [z|]; [|reflexivity]. unfold toString.
  destruct (z <? 0); [reflexivity|]. unfold digits.
  destruct (digitsAcc_head (Z.to_nat (Z.log2 z)) z EmptyString)
    as (d & rest & _ & ->).
  reflexivity.
Qed.

End NumberText.

(** ** The notification cache *)

Section CacheFacts.

Import Cache.

Implicit Types (u : option (gmap string value)) (ls : gmap string string).

Lemma length_append (s t : string) :
  String.length (s +:+ t) = (String.length s + String.length t)%nat.
Proof. induction s as [|c s IH]; simpl; [reflexivity | now rewrite IH]. Qed.

(** The count and its timestamp are stored under different keys. *)
Lemma cache_keys_differ u type k t :
  getNotificationCacheKey u type = Ok k ->
  getNotificationCacheTimestampKey u type = Ok t ->
  k <> t.
Proof.
  unfold getNotificationCacheKey, getNotificationCacheTimestampKey.
  destruct (cacheUserEmail u) as [e|]; cbn [rbind]; [|discriminate].
  intros [= <-] [= <-] E.
  apply (f_equal String.length) in E.
  rewrite !length_append in E. simpl in E. lia.
Qed.

Lemma cache_keys_defined u type e :
  cacheUserEmail u = Ok e ->
  getNotificationCacheKey u type
    = Ok ("notification_count_" +:+ type +:+ "_" +:+ e) /\
  getNotificationCacheTimestampKey u type
    = Ok ("notification_count_" +:+ type +:+ "_timestamp_" +:+ e).
Proof.
  intros H. unfold getNotificationCacheKey, getNotificationCacheTimestampKey.
  now rewrite H.
Qed.

(** Reading an entry written at [t0] with the clock at [t1]. *)
Lemma read_after_write u type e (n : Z) t0 t1 ls :
  cacheUserEmail u = Ok e ->
  let k := "notification_count_" +:+ type +:+ "_" +:+ e in
  let t := "notification_count_" +:+ type +:+ "_timestamp_" +:+ e in
  let ls1 := setCachedNotificationCount u t0 type (Int n) ls in
  ls1 !! k = Some (toString (Int n)) /\
  ls1 !! t = Some (toString (Int t0)) /\
  getCachedNotificationCount u t1 type ls1 =
    if t1 - t0 >? CACHE_DURATION_MS
    then (None, delete t (delete k ls1))
    else (Some (Int n), ls1).
Proof.
  intros He k t ls1.
  destruct (cache_keys_defined u type e He) as [Ek Et].
  pose proof (cache_keys_differ u type _ _ Ek Et) as Hne.
  fold k in Ek, Hne. fold t in Et, Hne.
  assert (L1 : ls1 !! k = Some (toString (Int n))).
  { subst ls1. unfold setCachedNotificationCount. rewrite Ek, Et.
    rewrite lookup_insert_ne by congruence. apply lookup_insert_eq. }
  assert (L2 : ls1 !! t = Some (toString (Int t0))).
  { subst ls1. unfold setCachedNotificationCount. rewrite Ek, Et.
    apply lookup_insert_eq. }
  split; [exact L1|]. split; [exact L2|].
  unfold getCachedNotificationCount. rewrite Ek, Et, L1, L2.
  cbn [missing default]. rewrite !toString_not_empty. cbn [orb].
  unfold id. rewrite !parseInt_toString. cbn [sub gt].
  rewrite Z.gtb_ltb. reflexivity.
Qed.

End CacheFacts.

Section CacheClaims.

Import Cache.

(** C6.  After [setCachedNotificationCount] has written 42 for 'reversals'
    at time [t0] for a user whose cache identity is [e], a read for the same
    category and user at time [t1] returns 42 and leaves the storage alone
    when at most five minutes have passed, and returns null and removes both
    items when more have passed. *)
Theorem cache_round_trip
    (u : option (gmap string value)) (e : string) (t0 t1 : Z)
    (ls : gmap string string) :
  cacheUserEmail u = Ok e ->
  let ls1 := setCachedNotificationCount u t0 "reversals" (Int 42) ls in
  (t1 - t0 <= 5 * 60 * 1000 ->
     getCachedNotificationCount u t1 "reversals" ls1 = (Some (Int 42), ls1)) /\
  (t1 - t0 > 5 * 60 * 1000 ->
     exists ls2,
       getCachedNotificationCount u t1 "reversals" ls1 = (None, ls2) /\
       ls2 !! ("notification_count_reversals_" +:+ e) = None /\
       ls2 !! ("notification_count_reversals_timestamp_" +:+ e) = None /\
       getCachedNotificationCount u t1 "reversals" ls2 = (None, ls2)).
Proof.
  intros He ls1.
  destruct (read_after_write u "reversals" e 42 t0 t1 ls He) as (_ & _ & R).
  destruct (cache_keys_defined u "reversals" e He) as [Ek Et].
  pose proof (cache_keys_differ u "reversals" _ _ Ek Et) as Hne.
  fold ls1 in R.
  change ("notification_count_" +:+ "reversals" +:+ "_" +:+ e)
    with ("notification_count_reversals_" +:+ e) in *.
  change ("notification_count_" +:+ "reversals" +:+ "_timestamp_" +:+ e)
    with ("notification_count_reversals_timestamp_" +:+ e) in *.
  set (k := "notification_count_reversals_" +:+ e) in *.
  set (t := "notification_count_reversals_timestamp_" +:+ e) in *.
  rewrite R. unfold CACHE_DURATION_MS.
  split; intros Ht.
  - destruct (Z.gtb_spec (t1 - t0) (5 * 60 * 1000)); [lia | reflexivity].
  - destruct (Z.gtb_spec (t1 - t0) (5 * 60 * 1000)); [|lia].
    assert (K : delete t (delete k ls1) !! k = None).
    { rewrite lookup_delete_ne by congruence. apply lookup_delete_eq. }
    assert (T : delete t (delete k ls1) !! t = None) by apply lookup_delete_eq.
    exists (delete t (delete k ls1)). repeat split; try assumption.
    unfold getCachedNotificationCount. rewrite Ek, Et, K. reflexivity.
Qed.

End CacheClaims.

Section CacheExamples.

Import Cache.

(** Property 5 of the specification: user a@x.com, written at 1000, read
    one minute later and one millisecond after the five minutes. *)
Lemma cache_round_trip_witness :
  let ls1 := setCachedNotificationCount Pages.userA 1000 "reversals" (Int 42) ∅ in
  getCachedNotificationCount Pages.userA 61000 "reversals" ls1 = (Some (Int 42), ls1) /\
  exists ls2,
    getCachedNotificationCount Pages.userA 301001 "reversals" ls1 = (None, ls2) /\
    ls2 !! "notification_count_reversals_a@x.com" = None /\
    ls2 !! "notification_count_reversals_timestamp_a@x.com" = None /\
    getCachedNotificationCount Pages.userA 301001 "reversals" ls2 = (None, ls2).
Proof.
  intros ls1. split.
  - apply (cache_round_trip Pages.userA "a@x.com" 1000 61000 ∅ eq_refl). lia.
  - apply (cache_round_trip Pages.userA "a@x.com" 1000 301001 ∅ eq_refl). lia.
Defined.

(** At exactly five minutes the entry is still served. *)
Example cache_hit_at_the_limit :
  fst (getCachedNotificationCount Pages.userA 301000 "reversals"
         (setCachedNotificationCount Pages.userA 1000 "reversals" (Int 42) ∅))
  = Some (Int 42).
Proof. reflexivity. Qed.

(** A user object whose email is not text: the key cannot be computed, the
    write is dropped and the read misses. *)
Example cache_without_text_email :
  let u := Some {[ "email" := VNum (Int 7) ]} in
  setCachedNotificationCount u 1000 "reversals" (Int 42) ∅ = ∅ /\
  getCachedNotificationCount u 1000 "reversals" ∅ = (None, ∅).
Proof. split; reflexivity. Qed.

End CacheExamples.

(** ** Badges *)

Section BadgeClaims.

Import Badges.

Lemma render_shown z b :
  1 <= z <= 99 ->
  render (Int z) b = {| textContent := toString (Int z); display := "inline-flex" |}.
Proof.
  intros H. unfold render. cbn [gt].
  destruct (Z.ltb_spec 0 z); [|lia]. destruct (Z.ltb_spec 99 z); [lia|].
  reflexivity.
Qed.

Lemma render_capped z b :
  100 <= z ->
  render (Int z) b = {| textContent := "99+"; display := "inline-flex" |}.
Proof.
  intros H. unfold render. cbn [gt].
  destruct (Z.ltb_spec 0 z); [|lia]. destruct (Z.ltb_spec 99 z); [|lia].
  reflexivity.
Qed.

Lemma render_hidden z b :
  z <= 0 -> render (Int z) b = {| textContent := textContent b; display := "none" |}.
Proof.
  intros H. unfold render. cbn [gt]. destruct (Z.ltb_spec 0 z); [lia|reflexivity].
Qed.

(** What the setter of the employee badge does with the user: the count
    is shown without a user and for the role 'Employee'; for a user of any
    other role the badge is hidden. *)
Lemma setEmployeeReversalBadgeCount_by_role
    (u : option (gmap string value)) count (page : gmap string Badge) b :
  page !! "employeeReversalNotificationBadge" = Some b ->
  setEmployeeReversalBadgeCount u count page !! "employeeReversalNotificationBadge" =
    Some (if match u with
             | Some _ => strict_eq (roleOf u) (VStr "Employee")
             | None => true
             end
          then render count b
          else {| textContent := textContent b; display := "none" |}).
Proof.
  intros H. unfold setEmployeeReversalBadgeCount. rewrite H.
  destruct u as [x|]; cbn [roleOf]; [|apply lookup_insert_eq].
  destruct (strict_eq (field x "role") (VStr "Employee")); apply lookup_insert_eq.
Qed.

(** C7 (as amended).  On a page that has the three badges:
    [setReversalBadgeCount] and [setAcknowledgmentBadgeCount] show the
    decimal text of a count from 1 to 99 (text that reads back as the
    count), show '99+' for a count of 100 or more, and hide the badge,
    leaving its text, for the count 0 and below.
    [setEmployeeReversalBadgeCount] does the same without a user and for a
    user of the role 'Employee'; for a user of any other role it hides the
    badge whatever the count. *)
Theorem badge_display_contract
    (z : Z) (u : option (gmap string value)) (page : gmap string Badge)
    (b1 b2 b3 : Badge) :
  page !! "reversalNotificationBadge" = Some b1 ->
  page !! "acknowledgmentNotificationBadge" = Some b2 ->
  page !! "employeeReversalNotificationBadge" = Some b3 ->
  let reversal :=
    setReversalBadgeCount (Int z) page !! "reversalNotificationBadge" in
  let acknowledgment :=
    setAcknowledgmentBadgeCount (Int z) page !! "acknowledgmentNotificationBadge" in
  let employee :=
    setEmployeeReversalBadgeCount u (Int z) page
      !! "employeeReversalNotificationBadge" in
  let forEmployee := u = None \/ roleOf u = VStr "Employee" in
  (1 <= z <= 99 ->
     reversal = Some {| textContent := toString (Int z); display := "inline-flex" |} /\
     acknowledgment = Some {| textContent := toString (Int z); display := "inline-flex" |} /\
     (forEmployee ->
      employee = Some {| textContent := toString (Int z); display := "inline-flex" |}) /\
     parseInt (toString (Int z)) = Int z) /\
  (100 <= z ->
     reversal = Some {| textContent := "99+"; display := "inline-flex" |} /\
     acknowledgment = Some {| textContent := "99+"; display := "inline-flex" |} /\
     (forEmployee ->
      employee = Some {| textContent := "99+"; display := "inline-flex" |})) /\
  (z <= 0 ->
     reversal = Some {| textContent := textContent b1; display := "none" |} /\
     acknowledgment = Some {| textContent := textContent b2; display := "none" |} /\
     employee = Some {| textContent := textContent b3; display := "none" |}) /\
  (~ forEmployee ->
     employee = Some {| textContent := textContent b3; display := "none" |}).
Proof.
  intros H1 H2 H3 reversal acknowledgment employee forEmployee.
  subst reversal acknowledgment employee forEmployee.
  rewrite (setEmployeeReversalBadgeCount_by_role u (Int z) page b3 H3).
  unfold setReversalBadgeCount, setAcknowledgmentBadgeCount.
  rewrite H1, H2, !lookup_insert_eq.
  assert (E : (u = None \/ roleOf u = VStr "Employee") ->
              match u with
              | Some _ => strict_eq (roleOf u) (VStr "Employee")
              | None => true
              end = true).
  { intros [-> | R]; [reflexivity|]. destruct u; [|reflexivity].
    rewrite R. apply strict_eq_refl_VStr. }
  split; [|split; [|split]]; intros Hz.
  - rewrite !render_shown by assumption.
    repeat split; auto using parseInt_toString.
    intros F. now rewrite (E F).
  - rewrite !render_capped by assumption. repeat split.
    intros F. now rewrite (E F).
  - rewrite !render_hidden by lia. repeat split.
    now destruct (match u with Some _ => _ | None => _ end).
  - destruct u as [x|]; [|exfalso; apply Hz; now left].
    destruct (strict_eq (roleOf (Some x)) (VStr "Employee")) eqn:S; [|reflexivity].
    exfalso. apply Hz. right. now apply strict_eq_VStr.
Qed.

(** The three counts the specification names, on the badges of the
    sidebar markup, and the employee badge of an employee. *)
Lemma badge_display_contract_witness :
  setReversalBadgeCount (Int 150) Pages.badges0 !! "reversalNotificationBadge"
    = Some {| textContent := "99+"; display := "inline-flex" |} /\
  setAcknowledgmentBadgeCount (Int 7) Pages.badges0 !! "acknowledgmentNotificationBadge"
    = Some {| textContent := "7"; display := "inline-flex" |} /\
  setReversalBadgeCount (Int 0) Pages.badges0 !! "reversalNotificationBadge"
    = Some {| textContent := "0"; display := "none" |} /\
  setEmployeeReversalBadgeCount Pages.employeeA (Int 7) Pages.badges0
    !! "employeeReversalNotificationBadge"
    = Some {| textContent := "7"; display := "inline-flex" |} /\
  setEmployeeReversalBadgeCount Pages.auditor (Int 7) Pages.badges0
    !! "employeeReversalNotificationBadge"
    = Some {| textContent := "0"; display := "none" |}.
Proof.
  pose proof (badge_display_contract 150 None Pages.badges0 Pages.hiddenBadge
                Pages.hiddenBadge Pages.hiddenBadge eq_refl eq_refl eq_refl)
    as (_ & H150 & _ & _).
  pose proof (badge_display_contract 7 Pages.employeeA Pages.badges0
                Pages.hiddenBadge Pages.hiddenBadge Pages.hiddenBadge
                eq_refl eq_refl eq_refl) as (H7 & _ & _ & _).
  pose proof (badge_display_contract 0 None Pages.badges0 Pages.hiddenBadge
                Pages.hiddenBadge Pages.hiddenBadge eq_refl eq_refl eq_refl)
    as (_ & _ & H0 & _).
  pose proof (badge_display_contract 7 Pages.auditor Pages.badges0
                Pages.hiddenBadge Pages.hiddenBadge Pages.hiddenBadge
                eq_refl eq_refl eq_refl) as (_ & _ & _ & HA).
  destruct H150 as (R150 & _); [lia|].
  destruct H7 as (_ & A7 & E7 & _); [lia|].
  destruct H0 as (R0 & _); [lia|].
  split; [exact R150|]. split; [exact A7|]. split; [exact R0|].
  split; [apply E7; right; reflexivity|].
  apply HA. intros [F | F]; discriminate F.
Defined.

(** C7 fails as stated for the third setter: for an auditor
    [setEmployeeReversalBadgeCount] hides the badge for the counts 150 and
    7, which the contract renders as '99+' and '7'. *)
Lemma employee_badge_hidden_for_other_roles :
  roleOf Pages.auditor = VStr "Auditor" /\
  Pages.badges0 !! "employeeReversalNotificationBadge"
    = Some {| textContent := "0"; display := "none" |} /\
  setEmployeeReversalBadgeCount Pages.auditor (Int 150) Pages.badges0
    !! "employeeReversalNotificationBadge"
    = Some {| textContent := "0"; display := "none" |} /\
  setEmployeeReversalBadgeCount Pages.auditor (Int 7) Pages.badges0
    !! "employeeReversalNotificationBadge"
    = Some {| textContent := "0"; display := "none" |}.
Proof. repeat split; vm_compute; reflexivity. Qed.

(** Without the badge element the setters do nothing. *)
Lemma setReversalBadgeCount_absent count (page : gmap string Badge) :
  page !! "reversalNotificationBadge" = None ->
  setReversalBadgeCount count page = page.
Proof. intros H. unfold setReversalBadgeCount. now rewrite H. Qed.

End BadgeClaims.

(** ** Failed recomputations *)

Section FallbackFacts.

Import Cache Badges Recompute.

Implicit Types (u : option (gmap string value)) (ls : gmap string string)
  (page : Browser) (be : Backend).


(** A read that returns a count leaves the storage as it is. *)
Lemma read_hit_keeps u now type ls c :
  fst (getCachedNotificationCount u now type ls) = Some c ->
  snd (getCachedNotificationCount u now type ls) = ls.
Proof.
  unfold getCachedNotificationCount.
  destruct (getNotificationCacheKey u type) as [k|]; [|reflexivity].
  destruct (getNotificationCacheTimestampKey u type) as [t|]; [|reflexivity].
  destruct (missing (ls !! k) || missing (ls !! t)); [reflexivity|].
  destruct (gt _ _); [discriminate|reflexivity].
Qed.




(** *** What [getUserInfo] writes *)

(** The migration leaves every field but the avatar. *)
Lemma field_migrated x name :
  name <> "avatar" ->
  field (<["avatar" := field x "picture"]> x) name = field x name.
Proof. intros H. unfold field. now rewrite lookup_insert_ne by congruence. Qed.

Lemma cacheUserEmail_migrated u : cacheUserEmail (migrated u) = cacheUserEmail u.
Proof.
  destruct u as [x|]; [|reflexivity]. unfold migrated.
  destruct (truthy _ && negb _); [|reflexivity].
  unfold cacheUserEmail. now rewrite field_migrated by discriminate.
Qed.

Lemma read_migrated u now type ls :
  getCachedNotificationCount (migrated u) now type ls
  = getCachedNotificationCount u now type ls.
Proof.
  unfold getCachedNotificationCount, getNotificationCacheKey,
    getNotificationCacheTimestampKey.
  now rewrite cacheUserEmail_migrated.
Qed.

Lemma write_migrated u now type count ls :
  setCachedNotificationCount (migrated u) now type count ls
  = setCachedNotificationCount u now type count ls.
Proof.
  unfold setCachedNotificationCount, getNotificationCacheKey,
    getNotificationCacheTimestampKey.
  now rewrite cacheUserEmail_migrated.
Qed.

Lemma roleOf_migrated u : roleOf (migrated u) = roleOf u.
Proof.
  destruct u as [x|]; [|reflexivity]. unfold migrated.
  destruct (truthy _ && negb _); [|reflexivity].
  cbn [roleOf]. now rewrite field_migrated by discriminate.
Qed.

Lemma isEmployee_migrated u : isEmployee (migrated u) = isEmployee u.
Proof.
  pose proof (roleOf_migrated u) as R. unfold isEmployee.
  destruct u as [x|]; [|reflexivity]. unfold migrated in *.
  destruct (truthy _ && negb _); [|reflexivity].
  cbn [roleOf] in R. now rewrite R.
Qed.

Lemma setEmployeeReversalBadgeCount_migrated u count (bs : gmap string Badge) :
  setEmployeeReversalBadgeCount (migrated u) count bs
  = setEmployeeReversalBadgeCount u count bs.
Proof.
  pose proof (roleOf_migrated u) as R. unfold setEmployeeReversalBadgeCount.
  destruct u as [x|]; [|reflexivity]. unfold migrated in *.
  destruct (truthy _ && negb _); [|reflexivity].
  cbn [roleOf] in R. now rewrite R.
Qed.

(** Once the avatar is set there is nothing left to migrate. *)
Lemma migrated_again u : migrated (migrated u) = migrated u.
Proof.
  destruct u as [x|]; [|reflexivity]. cbn [migrated].
  destruct (truthy (field x "picture") && negb (truthy (field x "avatar"))) eqn:C;
    cbn [migrated]; [|now rewrite C].
  apply andb_true_iff in C as [P _].
  assert (A : field (<["avatar" := field x "picture"]> x) "avatar"
              = field x "picture")
    by (unfold field; now rewrite lookup_insert_eq).
  rewrite A, P. now rewrite andb_false_r.
Qed.

Lemma userRead_again page : userRead (userRead page) = userRead page.
Proof. unfold userRead. cbn [userInfo localStorage badges]. now rewrite migrated_again. Qed.

Lemma getUserInfo_run page :
  getUserInfo page = (Ok (migrated (userInfo page)), userRead page).
Proof.
  unfold getUserInfo, userRead, migrated.
  destruct page as [[x|] ls bs]; cbn [userInfo localStorage badges]; [|reflexivity].
  destruct (truthy _ && negb _); reflexivity.
Qed.

(** A second call returns the same user and writes nothing. *)
Lemma getUserInfo_again page :
  getUserInfo (userRead page) = (Ok (migrated (userInfo page)), userRead page).
Proof.
  rewrite getUserInfo_run, userRead_again. cbn [userRead userInfo].
  now rewrite migrated_again.
Qed.

Lemma getCached_run now type page :
  let read :=
    getCachedNotificationCount (userInfo page) now type (localStorage page) in
  getCached now type page =
    (Ok (fst read),
     {| userInfo := migrated (userInfo page);
        localStorage := snd read;
        badges := badges page |}).
Proof.
  cbv zeta. unfold getCached, bind. rewrite getUserInfo_run.
  cbn [userRead userInfo localStorage badges]. rewrite read_migrated.
  now destruct (getCachedNotificationCount _ _ _ _).
Qed.

Lemma setCached_run now type count page :
  setCached now type count page =
    (Ok tt,
     {| userInfo := migrated (userInfo page);
        localStorage :=
          setCachedNotificationCount (userInfo page) now type count (localStorage page);
        badges := badges page |}).
Proof.
  unfold setCached, bind. rewrite getUserInfo_run.
  cbn [userRead userInfo localStorage badges]. now rewrite write_migrated.
Qed.

(** On a page whose user has been read, the setter of the employee badge
    changes the badges only. *)
Lemma setEmployeeBadge_run count u ls (bs : gmap string Badge) :
  setEmployeeBadge count {| userInfo := migrated u; localStorage := ls; badges := bs |} =
    (Ok tt,
     {| userInfo := migrated u; localStorage := ls;
        badges := setEmployeeReversalBadgeCount u count bs |}).
Proof.
  unfold setEmployeeBadge, bind. cbn [badges].
  destruct (bs !! "employeeReversalNotificationBadge") as [b|] eqn:B.
  - rewrite getUserInfo_run. unfold setBadge, userRead.
    cbn [userInfo localStorage badges].
    now rewrite migrated_again, !setEmployeeReversalBadgeCount_migrated.
  - unfold setEmployeeReversalBadgeCount. now rewrite B.
Qed.


(** A try block that throws has written nothing but what [getUserInfo]
    writes: the cache and the badge are written last, after every statement
    that can throw. *)
Lemma pendingReversalsAttempt_throws be now page e page1 :
  pendingReversalsAttempt be now page = (Throw e, page1) -> page1 = userRead page.
Proof.
  unfold pendingReversalsAttempt, bind. rewrite getUserInfo_run.
  destruct (isEmployee _); [discriminate|].
  destruct (negb (supabaseClient be)); [discriminate|].
  destruct (scorecards be) as [|data err]; [now intros [= _ <-]|].
  destruct err; [discriminate|].
  cbv beta iota delta [ret lift await].
  destruct (countWhere isPendingWorkflowState (combinedReversals be));
    [|now intros [= _ <-]].
  rewrite setCached_run. discriminate.
Qed.

Lemma employeeReversalsAttempt_throws be now page e page1 :
  employeeReversalsAttempt be now page = (Throw e, page1) -> page1 = userRead page.
Proof.
  unfold employeeReversalsAttempt, bind. rewrite getUserInfo_run.
  destruct (migrated (userInfo page)) as [u|] eqn:U; [|discriminate].
  destruct (negb (strict_eq (field u "role") (VStr "Employee"))); [discriminate|].
  destruct (negb (supabaseClient be)); [discriminate|].
  destruct (negb (truthy _) && negb (truthy _)); [discriminate|].
  destruct (scorecards be) as [|data err]; [now intros [= _ <-]|].
  destruct err; [discriminate|].
  cbv beta iota delta [ret lift await]. unfold userRead.
  destruct data as [[|table tables]|];
    rewrite ?setCached_run; cbn [userInfo localStorage badges];
    rewrite ?migrated_again, ?setEmployeeBadge_run; discriminate.
Qed.

Lemma pendingAcknowledgmentsAttempt_throws be now page e page1 :
  pendingAcknowledgmentsAttempt be now page = (Throw e, page1) -> page1 = userRead page.
Proof.
  unfold pendingAcknowledgmentsAttempt.
  destruct (negb (supabaseClient be)); [discriminate|].
  unfold bind. rewrite getUserInfo_run. unfold lift at 1.
  match goal with
  | |- context [match ?r with Ok _ => _ | Throw _ => _ end] =>
      destruct r as [mail|]
  end; [|now intros [= _ <-]].
  destruct (scorecards be) as [|data err]; [now intros [= _ <-]|].
  destruct err; [discriminate|].
  cbv beta iota delta [ret lift await].
  destruct data as [[|table tables]|]; rewrite ?setCached_run; discriminate.
Qed.

(** The fallbacks, read off the cache read. *)
Lemma pendingReversalsFallback_run now page :
  let read :=
    getCachedNotificationCount (userInfo page) now "reversals" (localStorage page) in
  pendingReversalsFallback now page =
    (Ok tt,
     {| userInfo := migrated (userInfo page);
        localStorage := snd read;
        badges := setReversalBadgeCount (default (Int 0) (fst read)) (badges page) |}).
Proof.
  cbv zeta. unfold pendingReversalsFallback, bind. rewrite getCached_run.
  now destruct (fst _).
Qed.

Lemma employeeReversalsFallback_run now page :
  let read :=
    getCachedNotificationCount (userInfo page) now "employeeReversals"
      (localStorage page) in
  employeeReversalsFallback now page =
    (Ok tt,
     {| userInfo := migrated (userInfo page);
        localStorage := snd read;
        badges := setEmployeeReversalBadgeCount (userInfo page)
                    (default (Int 0) (fst read)) (badges page) |}).
Proof.
  cbv zeta. unfold employeeReversalsFallback, bind. rewrite getCached_run.
  destruct (fst _); now rewrite setEmployeeBadge_run.
Qed.

Lemma pendingAcknowledgmentsFallback_run now page :
  let read :=
    getCachedNotificationCount (userInfo page) now "acknowledgments"
      (localStorage page) in
  pendingAcknowledgmentsFallback now page =
    (Ok tt,
     {| userInfo := migrated (userInfo page);
        localStorage := snd read;
        badges := setAcknowledgmentBadgeCount (default (Int 0) (fst read))
                    (badges page) |}).
Proof.
  cbv zeta. unfold pendingAcknowledgmentsFallback, bind. rewrite getCached_run.
  now destruct (fst _).
Qed.

(** A failed recomputation of one of the three categories ends as its
    fallback does on the page as it was. *)
Lemma failed_recomputation_run type attempt update show be now page e page1 :
  In (type, attempt, update, show) recomputations ->
  attempt be now page = (Throw e, page1) ->
  let read :=
    getCachedNotificationCount (userInfo page) now type (localStorage page) in
  page1 = userRead page /\
  update be now page =
    (Ok tt,
     {| userInfo := migrated (userInfo page);
        localStorage := snd read;
        badges := show (userInfo page) (default (Int 0) (fst read)) (badges page) |}).
Proof.
  intros Hin H read. subst read.
  destruct Hin as [[= <- <- <- <-] | [[= <- <- <- <-] | [[= <- <- <- <-] | []]]].
  - pose proof (pendingReversalsAttempt_throws _ _ _ _ _ H) as ->.
    split; [reflexivity|].
    unfold updatePendingReversalsCount, tryCatch. rewrite H.
    rewrite pendingReversalsFallback_run. unfold userRead.
    cbn [userInfo localStorage badges]. now rewrite migrated_again, read_migrated.
  - pose proof (employeeReversalsAttempt_throws _ _ _ _ _ H) as ->.
    split; [reflexivity|].
    unfold updateEmployeeReversalUpdatesCount, tryCatch. rewrite H.
    rewrite employeeReversalsFallback_run. unfold userRead.
    cbn [userInfo localStorage badges].
    now rewrite migrated_again, read_migrated, setEmployeeReversalBadgeCount_migrated.
  - pose proof (pendingAcknowledgmentsAttempt_throws _ _ _ _ _ H) as ->.
    split; [reflexivity|].
    unfold updatePendingAcknowledgmentsCount, tryCatch. rewrite H.
    rewrite pendingAcknowledgmentsFallback_run. unfold userRead.
    cbn [userInfo localStorage badges]. now rewrite migrated_again, read_migrated.
Qed.

End FallbackFacts.

Section FallbackClaims.

Import Cache Badges Recompute.




(** The acknowledgment count behaves alike. *)
Example failed_acknowledgments_clear_stale_cache :
  let after := snd (updatePendingAcknowledgmentsCount Pages.unreachable 301001
                      Pages.cachedAt1000) in
  localStorage Pages.cachedAt1000 !! "notification_count_acknowledgments_a@x.com"
    = Some "5" /\
  localStorage after !! "notification_count_acknowledgments_a@x.com" = None /\
  badges after !! "acknowledgmentNotificationBadge"
    = Some {| textContent := "0"; display := "none" |}.
Proof. repeat split; vm_compute; reflexivity. Qed.

(** A record the pending predicate cannot read makes the reversal count
    fail after the backend has answered. *)
Example unreadable_record_fails_recomputation :
  let be := {| supabaseClient := true;
               scorecards := Resolves (Some []) false;
               combinedReversals := [Samples.legacyStatusNumber];
               respondedCount := fun _ _ _ => Rejects;
               acknowledgements := fun _ _ => Rejects |} in
  pendingReversalsAttempt be 2000 Pages.cachedAt1000
    = (Throw TypeError, Pages.cachedAt1000).
Proof. vm_compute. reflexivity. Qed.

(** A failure on the page of a user with a picture and no avatar: the
    avatar has been written when the try block throws; the cache is kept
    and its count shown all the same. *)
Example failed_recomputation_after_migration :
  let after := snd (updatePendingReversalsCount Pages.unreachable 2000
                      Pages.pictureCachedAt1000) in
  userInfo Pages.pictureCachedAt1000 <> userInfo after /\
  option_map (fun u => field u "avatar") (userInfo after) = Some (VStr "a.png") /\
  localStorage after = localStorage Pages.pictureCachedAt1000 /\
  badges after !! "reversalNotificationBadge"
    = Some {| textContent := "5"; display := "inline-flex" |}.
Proof.
  split; [|repeat split; vm_compute; reflexivity].
  intros E. apply (f_equal (option_map (fun u => field u "avatar"))) in E.
  vm_compute in E. discriminate E.
Qed.

End FallbackClaims.

(** ** Role-gated navigation *)

Section MenuFacts.

Import Menu.

Lemma strict_eq_VStr_iff (v : value) (s : string) :
  strict_eq v (VStr s) = true <-> v = VStr s.
Proof.
  split; [apply strict_eq_VStr | intros ->; apply strict_eq_refl_VStr].
Qed.

(** [(role || '') === 'Employee'] is [role === 'Employee']. *)
Lemma role_or_empty (v : value) :
  strict_eq (orElse v (VStr "")) (VStr "Employee") = strict_eq v (VStr "Employee").
Proof.
  unfold orElse. destruct (truthy v) eqn:T; [reflexivity|].
  destruct v as [| |b|n|s]; try reflexivity.
  simpl in T. apply negb_false_iff, String.eqb_eq in T. now subst.
Qed.

(** The embedded menu after role gating, by role. *)
Lemma applyRoleGating_embedded (u : option (gmap string value)) :
  applyRoleGating u embeddedSidebar =
    if strict_eq (roleOf u) (VStr "Employee")
    then applyRoleGating Pages.employeeA embeddedSidebar
    else if strict_eq (roleOf u) (VStr "Super Admin")
         then applyRoleGating Pages.superAdmin embeddedSidebar
         else embeddedSidebar.
Proof.
  destruct u as [u|]; [|reflexivity].
  unfold applyRoleGating, hideEmployeeMenuItems, updateAccessControlMenuItem.
  cbn [roleOf]. rewrite role_or_empty.
  destruct (strict_eq (field u "role") (VStr "Employee")) eqn:E.
  - apply strict_eq_VStr in E. rewrite E. vm_compute. reflexivity.
  - cbn [negb].
    destruct (strict_eq (field u "role") (VStr "Super Admin"));
      vm_compute; reflexivity.
Qed.

(** *** The Access Control entry on any menu *)

Lemma showInLi_submenu target d i it old sub :
  showInLi target d (MkLi i it old sub) =
    if bool_decide (i = Some target) then Some (MkLi i it (Some d) sub)
    else option_map (MkLi i it old) (showFirst target d sub).
Proof.
  cbn [showInLi]. destruct (bool_decide (i = Some target)); [reflexivity|].
  match goal with
  | |- match ?a with _ => _ end = option_map _ ?b => assert (E : a = b)
  end.
  { induction sub as [|x xs IH]; [reflexivity|]. cbn [showFirst].
    destruct (showInLi target d x); [reflexivity | now rewrite IH]. }
  rewrite E. now destruct (showFirst target d sub).
Qed.

Lemma displayInLi_submenu target i it d sub :
  displayInLi target (MkLi i it d sub) =
    if bool_decide (i = Some target) then Some d else displayById target sub.
Proof.
  cbn [displayInLi]. destruct (bool_decide (i = Some target)); [reflexivity|].
  induction sub as [|x xs IH]; [reflexivity|]. cbn [displayById].
  destruct (displayInLi target x); [reflexivity | exact IH].
Qed.

Lemma showFirst_of_entries target d (menu : list Li) :
  Forall (fun l => ShownIn target d (displayInLi target l)
                     (displayInLi target <$> showInLi target d l)) menu ->
  ShownIn target d (displayById target menu)
    (displayById target <$> showFirst target d menu).
Proof.
  induction 1 as [|x xs Hx _ IH]; [reflexivity|].
  cbn [showFirst displayById].
  destruct (showInLi target d x) as [x'|];
    cbn [fmap option_fmap option_map ShownIn displayById] in Hx |- *.
  - now rewrite Hx.
  - rewrite Hx. destruct (showFirst target d xs) as [xs'|];
      cbn [fmap option_fmap option_map ShownIn displayById] in IH |- *.
    + now rewrite Hx.
    + exact IH.
Qed.

Lemma showInLi_spec target d (l : Li) :
  ShownIn target d (displayInLi target l)
    (displayInLi target <$> showInLi target d l).
Proof.
  induction l as [i it old sub IH] using Li_induction.
  rewrite showInLi_submenu, displayInLi_submenu.
  destruct (bool_decide (i = Some target)) eqn:B.
  - cbn [fmap option_fmap option_map ShownIn].
    rewrite displayInLi_submenu, B. reflexivity.
  - pose proof (showFirst_of_entries target d sub IH) as S.
    destruct (showFirst target d sub) as [sub'|];
      cbn [fmap option_fmap option_map ShownIn] in S |- *.
    + rewrite displayInLi_submenu, B. exact S.
    + exact S.
Qed.

Lemma showFirst_spec target d (menu : list Li) :
  ShownIn target d (displayById target menu)
    (displayById target <$> showFirst target d menu).
Proof.
  apply showFirst_of_entries, Forall_forall. intros l _. apply showInLi_spec.
Qed.

(** On any menu that has the Access Control entry, the entry is shown as a
    block for the role 'Super Admin' and hidden otherwise. *)
Lemma updateAccessControlMenuItem_display
    (u : option (gmap string value)) (menu : list Li) (old : option string) :
  displayById "accessControlMenuItem" menu = Some old ->
  displayById "accessControlMenuItem" (updateAccessControlMenuItem u menu) =
    Some (Some (if strict_eq (roleOf u) (VStr "Super Admin") then "block" else "none")).
Proof.
  intros H. unfold updateAccessControlMenuItem.
  replace (match u with
           | Some x => strict_eq (field x "role") (VStr "Super Admin")
           | None => false
           end) with (strict_eq (roleOf u) (VStr "Super Admin"))
    by (destruct u; reflexivity).
  set (d := if strict_eq (roleOf u) (VStr "Super Admin") then "block" else "none").
  pose proof (showFirst_spec "accessControlMenuItem" d menu) as S.
  destruct (showFirst "accessControlMenuItem" d menu) as [menu'|];
    cbn [fmap option_fmap option_map ShownIn default from_option] in S |- *.
  - exact S.
  - congruence.
Qed.

End MenuFacts.

Section MenuClaims.

Import Menu.

(** For a user who is no employee, and without a user,
    [hideEmployeeMenuItems] returns before it touches the menu. *)
Lemma hideEmployeeMenuItems_other_roles (u : option (gmap string value)) menu :
  roleOf u <> VStr "Employee" -> hideEmployeeMenuItems u menu = menu.
Proof.
  intros H. unfold hideEmployeeMenuItems. destruct u as [x|]; [|reflexivity].
  rewrite role_or_empty. cbn [roleOf] in H.
  destruct (strict_eq (field x "role") (VStr "Employee")) eqn:E; [|reflexivity].
  now apply strict_eq_VStr in E.
Qed.

Lemma not_listed (name : string) (l : list string) :
  existsb (String.eqb name) l = false -> ~ In name l.
Proof.
  intros H Hin. apply not_true_iff_false in H. apply H.
  apply existsb_exists. exists name. split; [exact Hin | apply String.eqb_refl].
Qed.

(** C2 (as amended).  On the embedded menu ([getEmbeddedSidebarHTML]), for
    the role 'Employee' the gating sets the display of exactly seven
    entries to 'none': the five main entries Search, Auditor's Dashboard,
    Audit Distribution, Create New Audit and Improvement Corner, and the two
    Settings entries Scorecards and User Management.  This hides ten
    entries: the seven and the three links in the sub-menu of Improvement
    Corner.  For any other role, and without a user,
    [hideEmployeeMenuItems] leaves every menu as it is, and on the embedded
    menu nothing is hidden that was not.  For no user does the gating set
    the display of Profile or of the Settings entry that holds it, or hide
    Profile.  Access Control is shown for the role 'Super Admin' and hidden
    for every other role and without a user, there and on any other menu
    that has the entry. *)
Theorem role_gating (u : option (gmap string value)) :
  let after := applyRoleGating u embeddedSidebar in
  (roleOf u = VStr "Employee" ->
     setToNone embeddedSidebar after =
       ["Search"; "Auditor's Dashboard"; "Audit Distribution"; "Create New Audit";
        "Improvement Corner"; "scorecards.html"; "user-management.html"] /\
     newlyHidden embeddedSidebar after =
       ["Search"; "Auditor's Dashboard"; "Audit Distribution"; "Create New Audit";
        "Improvement Corner"; "calibration.html"; "ata.html"; "grading-guide.html";
        "scorecards.html"; "user-management.html"]) /\
  (roleOf u <> VStr "Employee" ->
     (forall menu : list Li, hideEmployeeMenuItems u menu = menu) /\
     setToNone embeddedSidebar after = [] /\
     newlyHidden embeddedSidebar after = []) /\
  displayOf "profile.html" after = Some None /\
  displayOf "Settings" after = Some None /\
  ~ In "profile.html" (hidden after) /\
  (roleOf u = VStr "Super Admin" ->
     displayOf "access-control.html" after = Some (Some "block")) /\
  (roleOf u <> VStr "Super Admin" ->
     displayOf "access-control.html" after = Some (Some "none")) /\
  (forall (menu : list Li) (old : option string),
     displayById "accessControlMenuItem" menu = Some old ->
     displayById "accessControlMenuItem" (updateAccessControlMenuItem u menu) =
       Some (Some (if strict_eq (roleOf u) (VStr "Super Admin")
                   then "block" else "none"))).
Proof.
  intros after. subst after. rewrite applyRoleGating_embedded.
  pose proof (strict_eq_VStr_iff (roleOf u) "Employee") as E.
  pose proof (strict_eq_VStr_iff (roleOf u) "Super Admin") as S.
  split; [|split].
  - intros H. destruct E as [_ E]. rewrite (E H). split; vm_compute; reflexivity.
  - intros H. split; [intros menu; now apply hideEmployeeMenuItems_other_roles|].
    destruct (strict_eq (roleOf u) (VStr "Employee")); [exfalso; apply H; tauto|].
    destruct (strict_eq (roleOf u) (VStr "Super Admin"));
      split; vm_compute; reflexivity.
  - repeat match goal with |- _ /\ _ => split end;
      try (intros menu old; apply updateAccessControlMenuItem_display);
      try apply not_listed;
      destruct (strict_eq (roleOf u) (VStr "Employee"));
      destruct (strict_eq (roleOf u) (VStr "Super Admin"));
      try (vm_compute; reflexivity);
      intros H;
      try (vm_compute; reflexivity);
      try (exfalso; apply H; tauto);
      try (destruct E as [E _]; rewrite E in H by reflexivity; discriminate H);
      try (destruct S as [_ S]; specialize (S H); discriminate S).
Qed.

Lemma role_gating_witness :
  setToNone embeddedSidebar (applyRoleGating Pages.employeeA embeddedSidebar) =
    ["Search"; "Auditor's Dashboard"; "Audit Distribution"; "Create New Audit";
     "Improvement Corner"; "scorecards.html"; "user-management.html"] /\
  newlyHidden embeddedSidebar (applyRoleGating Pages.auditor embeddedSidebar) = [] /\
  displayOf "access-control.html" (applyRoleGating Pages.superAdmin embeddedSidebar)
    = Some (Some "block") /\
  displayOf "access-control.html" (applyRoleGating None embeddedSidebar)
    = Some (Some "none").
Proof.
  destruct (role_gating Pages.employeeA) as (H1 & _).
  destruct (role_gating Pages.auditor) as (_ & H2 & _).
  destruct (role_gating Pages.superAdmin) as (_ & _ & _ & _ & _ & H3 & _).
  destruct (role_gating None) as (_ & _ & _ & _ & _ & _ & H4 & _).
  split; [apply H1; reflexivity|].
  split; [apply H2; discriminate|].
  split; [apply H3; reflexivity | apply H4; discriminate].
Defined.

(** C2 fails as stated: for an employee the display of seven entries is
    set to 'none', not of five, and ten entries are hidden; Scorecards and
    User Management are among them. *)
Lemma employee_gating_sets_seven_to_none :
  let after := applyRoleGating Pages.employeeA embeddedSidebar in
  roleOf Pages.employeeA = VStr "Employee" /\
  length (setToNone embeddedSidebar after) = 7%nat /\
  length (newlyHidden embeddedSidebar after) = 10%nat /\
  displayOf "scorecards.html" embeddedSidebar = Some None /\
  displayOf "scorecards.html" after = Some (Some "none") /\
  displayOf "user-management.html" embeddedSidebar = Some None /\
  displayOf "user-management.html" after = Some (Some "none").
Proof. repeat split; vm_compute; reflexivity. Qed.

End MenuClaims.

(** ** More on the notification cache *)

Section CacheMore.

Import Cache SidebarState.

Implicit Types (u : option (gmap string value)) (ls : gmap string string).

Lemma startsWith_append (p s : string) : startsWith (p +:+ s) p = true.
Proof.
  induction p as [|c p IH]; [now destruct s|].
  simpl. now rewrite Ascii.eqb_refl, IH.
Qed.

(** Both keys of a category are cache items. *)
Lemma cache_keys_are_cache_items u type k t :
  getNotificationCacheKey u type = Ok k ->
  getNotificationCacheTimestampKey u type = Ok t ->
  isCacheItem k = true /\ isCacheItem t = true.
Proof.
  unfold getNotificationCacheKey, getNotificationCacheTimestampKey, isCacheItem.
  destruct (cacheUserEmail u) as [e|]; cbn [rbind]; [|discriminate].
  intros [= <-] [= <-]. split; apply startsWith_append.
Qed.

(** The keys of two different categories, for one user, are all different. *)
Lemma category_keys_differ u e a b ka ta kb tb :
  cacheUserEmail u = Ok e ->
  In a categories -> In b categories -> a <> b ->
  getNotificationCacheKey u a = Ok ka ->
  getNotificationCacheTimestampKey u a = Ok ta ->
  getNotificationCacheKey u b = Ok kb ->
  getNotificationCacheTimestampKey u b = Ok tb ->
  ka <> kb /\ ka <> tb /\ ta <> kb /\ ta <> tb.
Proof.
  intros He Ha Hb Hab.
  unfold getNotificationCacheKey, getNotificationCacheTimestampKey.
  rewrite He. cbn [rbind]. intros [= <-] [= <-] [= <-] [= <-].
  cbn [In categories] in Ha, Hb.
  destruct Ha as [<- | [<- | [<- | []]]];
    destruct Hb as [<- | [<- | [<- | []]]];
    try (now contradiction Hab);
    repeat split; intros E;
    apply (f_equal (String.get 19)) in E; cbv in E; discriminate E.
Qed.


(** A read and a write touch the two items of their category only. *)
Lemma read_keeps_other_items u now type ls k t key :
  getNotificationCacheKey u type = Ok k ->
  getNotificationCacheTimestampKey u type = Ok t ->
  key <> k -> key <> t ->
  snd (getCachedNotificationCount u now type ls) !! key = ls !! key.
Proof.
  intros Hk Ht Nk Nt. unfold getCachedNotificationCount. rewrite Hk, Ht.
  destruct (missing (ls !! k) || missing (ls !! t)); [reflexivity|].
  destruct (gt _ _); [|reflexivity]. cbn [snd].
  now rewrite !lookup_delete_ne by congruence.
Qed.

Lemma write_keeps_other_items u now type count ls k t key :
  getNotificationCacheKey u type = Ok k ->
  getNotificationCacheTimestampKey u type = Ok t ->
  key <> k -> key <> t ->
  setCachedNotificationCount u now type count ls !! key = ls !! key.
Proof.
  intros Hk Ht Nk Nt. unfold setCachedNotificationCount. rewrite Hk, Ht.
  now rewrite !lookup_insert_ne by congruence.
Qed.

Lemma keys_or_nothing u type :
  (exists k t, getNotificationCacheKey u type = Ok k /\
               getNotificationCacheTimestampKey u type = Ok t) \/
  (forall now ls, getCachedNotificationCount u now type ls = (None, ls)) /\
  (forall now count ls, setCachedNotificationCount u now type count ls = ls).
Proof.
  unfold getCachedNotificationCount, setCachedNotificationCount,
    getNotificationCacheKey, getNotificationCacheTimestampKey.
  destruct (cacheUserEmail u) as [e|err]; cbn [rbind]; [left; eauto|].
  right. split; reflexivity.
Qed.

Lemma write_keeps_foreign_item u now type count ls key :
  isCacheItem key = false ->
  setCachedNotificationCount u now type count ls !! key = ls !! key.
Proof.
  intros Hf.
  destruct (keys_or_nothing u type) as [(k & t & Hk & Ht) | [_ W]];
    [|now rewrite W].
  destruct (cache_keys_are_cache_items u type k t Hk Ht) as [Ck Ct].
  eapply write_keeps_other_items; eauto; congruence.
Qed.

Lemma read_keeps_foreign_item u now type ls key :
  isCacheItem key = false ->
  snd (getCachedNotificationCount u now type ls) !! key = ls !! key.
Proof.
  intros Hf.
  destruct (keys_or_nothing u type) as [(k & t & Hk & Ht) | [R _]];
    [|now rewrite R].
  destruct (cache_keys_are_cache_items u type k t Hk Ht) as [Ck Ct].
  eapply read_keeps_other_items; eauto; congruence.
Qed.

End CacheMore.

Section CacheExtras.

Import Cache SidebarState.

Implicit Types (u : option (gmap string value)) (ls : gmap string string).

(** X1.  Categories do not interfere: for one user and two different
    categories among the three, writing a count for the one and reading the
    other commute; the read returns what it returned before the write. *)
Theorem cache_categories_independent u e a b count t0 now ls :
  cacheUserEmail u = Ok e ->
  In a categories -> In b categories -> a <> b ->
  getCachedNotificationCount u now b (setCachedNotificationCount u t0 a count ls)
  = (fst (getCachedNotificationCount u now b ls),
     setCachedNotificationCount u t0 a count
       (snd (getCachedNotificationCount u now b ls))).
Proof.
  intros He Ha Hb Hab.
  destruct (cache_keys_defined u a e He) as [Hka Hta].
  destruct (cache_keys_defined u b e He) as [Hkb Htb].
  destruct (category_keys_differ u e a b _ _ _ _ He Ha Hb Hab Hka Hta Hkb Htb)
    as (N1 & N2 & N3 & N4).
  set (ka := "notification_count_" +:+ a +:+ "_" +:+ e) in *.
  set (ta := "notification_count_" +:+ a +:+ "_timestamp_" +:+ e) in *.
  set (kb := "notification_count_" +:+ b +:+ "_" +:+ e) in *.
  set (tb := "notification_count_" +:+ b +:+ "_timestamp_" +:+ e) in *.
  unfold getCachedNotificationCount, setCachedNotificationCount.
  rewrite Hka, Hta, Hkb, Htb.
  rewrite !lookup_insert_ne by congruence.
  destruct (missing (ls !! kb) || missing (ls !! tb)); [reflexivity|].
  destruct (gt _ _); [|reflexivity]. cbn [fst snd]. f_equal.
  now rewrite !delete_insert_ne by congruence.
Qed.

Lemma cache_categories_independent_witness :
  getCachedNotificationCount Pages.userA 2000 "acknowledgments"
    (setCachedNotificationCount Pages.userA 1500 "reversals" (Int 9)
       (localStorage Pages.cachedAt1000))
  = (Some (Int 5),
     setCachedNotificationCount Pages.userA 1500 "reversals" (Int 9)
       (localStorage Pages.cachedAt1000)).
Proof.
  rewrite (cache_categories_independent Pages.userA "a@x.com"
             "reversals" "acknowledgments" (Int 9) 1500 2000
             (localStorage Pages.cachedAt1000) eq_refl).
  - reflexivity.
  - cbn. tauto.
  - cbn. tauto.
  - discriminate.
Defined.

(** X2.  The last write wins: a second write for a category replaces the
    first one, count and timestamp, whatever the user and the category. *)
Theorem cache_last_write_wins u type c0 c1 t0 t1 ls :
  setCachedNotificationCount u t1 type c1
    (setCachedNotificationCount u t0 type c0 ls)
  = setCachedNotificationCount u t1 type c1 ls.
Proof.
  destruct (keys_or_nothing u type) as [(k & t & Hk & Ht) | [_ W]].
  - pose proof (cache_keys_differ u type k t Hk Ht) as Hne.
    unfold setCachedNotificationCount. rewrite Hk, Ht.
    rewrite (insert_insert_ne _ k t) by congruence.
    now rewrite !insert_insert_eq.
  - now rewrite !W.
Qed.

(** X3.  Reading twice is reading once: a second read at the same clock
    value returns the same count and leaves the storage of the first. *)
Theorem cache_read_idempotent u now type ls :
  let first := getCachedNotificationCount u now type ls in
  getCachedNotificationCount u now type (snd first) = first.
Proof.
  cbv zeta.
  destruct (keys_or_nothing u type) as [(k & t & Hk & Ht) | [R _]];
    [|now rewrite !R].
  pose proof (cache_keys_differ u type k t Hk Ht) as Hne.
  unfold getCachedNotificationCount. rewrite Hk, Ht.
  destruct (missing (ls !! k) || missing (ls !! t)) eqn:Hm.
  - cbn [snd]. now rewrite Hm.
  - destruct (gt _ _) eqn:G; cbn [snd].
    + assert (K : delete t (delete k ls) !! k = None)
        by (rewrite lookup_delete_ne by congruence; apply lookup_delete_eq).
      now rewrite K.
    + now rewrite Hm, G.
Qed.

(** X4.  A half entry is a miss that is left in place: when the count or
    its timestamp is missing or empty, the read returns null and does not
    touch the storage. *)
Theorem cache_half_entry_is_a_miss u now type ls k t :
  getNotificationCacheKey u type = Ok k ->
  getNotificationCacheTimestampKey u type = Ok t ->
  (ls !! k = None \/ ls !! k = Some "" \/ ls !! t = None \/ ls !! t = Some "") ->
  getCachedNotificationCount u now type ls = (None, ls).
Proof.
  intros Hk Ht H. unfold getCachedNotificationCount. rewrite Hk, Ht.
  assert (M : missing (ls !! k) || missing (ls !! t) = true).
  { destruct H as [-> | [-> | [-> | ->]]]; cbn;
      rewrite ?orb_true_r; reflexivity. }
  now rewrite M.
Qed.

Lemma cache_half_entry_is_a_miss_witness :
  getCachedNotificationCount Pages.userA 2000 "reversals" MorePages.orphanCount
  = (None, MorePages.orphanCount).
Proof.
  apply (cache_half_entry_is_a_miss Pages.userA 2000 "reversals"
           MorePages.orphanCount
           "notification_count_reversals_a@x.com"
           "notification_count_reversals_timestamp_a@x.com" eq_refl eq_refl).
  right. right. left. reflexivity.
Defined.

(** X5.  An entry whose timestamp does not read as a number never expires:
    the read returns the stored count at every clock value. *)
Theorem cache_unreadable_timestamp_never_expires u type ls k t data stamp :
  getNotificationCacheKey u type = Ok k ->
  getNotificationCacheTimestampKey u type = Ok t ->
  ls !! k = Some data -> data <> "" ->
  ls !! t = Some stamp -> stamp <> "" ->
  parseInt stamp = NaN ->
  forall now,
    getCachedNotificationCount u now type ls = (Some (parseInt data), ls).
Proof.
  intros Hk Ht Hd Nd Hs Ns Hp now.
  unfold getCachedNotificationCount. rewrite Hk, Ht, Hd, Hs.
  cbn [missing default from_option id].
  apply String.eqb_neq in Nd, Ns. rewrite Nd, Ns. cbn [orb].
  unfold id. rewrite Hp. reflexivity.
Qed.

Lemma cache_unreadable_timestamp_never_expires_witness :
  getCachedNotificationCount Pages.userA 1000 "reversals" MorePages.corruptTimestamp
    = (Some (Int 12), MorePages.corruptTimestamp) /\
  getCachedNotificationCount Pages.userA 9999999999999 "reversals"
    MorePages.corruptTimestamp
    = (Some (Int 12), MorePages.corruptTimestamp).
Proof.
  assert (H : forall now,
            getCachedNotificationCount Pages.userA now "reversals"
              MorePages.corruptTimestamp
            = (Some (parseInt "12"), MorePages.corruptTimestamp)).
  { apply (cache_unreadable_timestamp_never_expires Pages.userA "reversals"
             MorePages.corruptTimestamp
             "notification_count_reversals_a@x.com"
             "notification_count_reversals_timestamp_a@x.com" "12" "soon");
      first [reflexivity | discriminate]. }
  split; apply H.
Defined.

(** X6.  The cache keeps to its own items, but for what [getUserInfo]
    writes.  A write and a read on the page leave every item other than
    userInfo whose key does not start with 'notification_count_', and the
    badges, as they are; the item userInfo holds the user as [getUserInfo]
    leaves it, with the picture copied to a missing avatar. *)
Theorem cache_keeps_foreign_items now type count page key :
  isCacheItem key = false -> key <> "userInfo" ->
  let written := snd (setCached now type count page) in
  let read := snd (getCached now type page) in
  (localStorage written !! key = localStorage page !! key /\
   userInfo written = migrated (userInfo page) /\
   badges written = badges page) /\
  (localStorage read !! key = localStorage page !! key /\
   userInfo read = migrated (userInfo page) /\
   badges read = badges page).
Proof.
  intros Hf _ written read. subst written read.
  rewrite setCached_run, getCached_run. cbn [snd userInfo localStorage badges].
  repeat split.
  - now apply write_keeps_foreign_item.
  - now apply read_keeps_foreign_item.
Qed.

Lemma cache_keeps_foreign_items_witness :
  let page := {| userInfo := Pages.userWithPicture;
                 localStorage := saveSidebarState "expanded" ∅;
                 badges := Pages.badges0 |} in
  let written := snd (setCached 1000 "reversals" (Int 3) page) in
  localStorage written !! "sidebarState" = Some "expanded" /\
  userInfo written
    = Some (<[ "avatar" := VStr "a.png" ]>
              (<[ "picture" := VStr "a.png" ]> {[ "email" := VStr "a@x.com" ]})).
Proof.
  intros page written.
  destruct (cache_keeps_foreign_items 1000 "reversals" (Int 3) page
              "sidebarState" eq_refl) as [(W & U & _) _]; [discriminate|].
  fold written in W, U. split; [rewrite W; reflexivity | rewrite U; reflexivity].
Defined.

(** X7.  The saved sidebar state reads back: after [saveSidebarState s] the
    state is [s], or 'collapsed' for the empty text, and stays so across
    any cache write and read; on any storage without a saved state, or with
    an empty one, it is 'collapsed'. *)
Theorem sidebar_state_round_trip u now type count s ls :
  let saved := saveSidebarState s ls in
  let answer := if String.eqb s "" then "collapsed" else s in
  getSidebarState saved = answer /\
  getSidebarState (setCachedNotificationCount u now type count saved) = answer /\
  getSidebarState (snd (getCachedNotificationCount u now type saved)) = answer /\
  (ls !! "sidebarState" = None \/ ls !! "sidebarState" = Some "" ->
   getSidebarState ls = "collapsed").
Proof.
  intros saved answer.
  assert (E : getSidebarState saved = answer).
  { unfold getSidebarState, saved, saveSidebarState. now rewrite lookup_insert_eq. }
  pose proof (write_keeps_foreign_item u now type count saved "sidebarState"
                eq_refl) as W.
  pose proof (read_keeps_foreign_item u now type saved "sidebarState" eq_refl) as R.
  repeat split; try exact E.
  - unfold getSidebarState in *. now rewrite W.
  - unfold getSidebarState in *. now rewrite R.
  - unfold getSidebarState. now intros [-> | ->].
Qed.

Lemma sidebar_state_round_trip_witness :
  getSidebarState (saveSidebarState "expanded" MorePages.orphanCount) = "expanded" /\
  getSidebarState MorePages.orphanCount = "collapsed".
Proof.
  destruct (sidebar_state_round_trip Pages.userA 1000 "reversals" (Int 3)
              "expanded" MorePages.orphanCount) as (A & _ & _ & D).
  split; [exact A | apply D; left; reflexivity].
Defined.

End CacheExtras.

(** ** More on the recomputations *)

Section CountFacts.

Import Recompute.

Lemma countWhere_bounds {A} (p : A -> result bool) (l : list A) n :
  countWhere p l = Ok n -> 0 <= n <= Z.of_nat (length l).
Proof.
  revert n. induction l as [|x l IH]; intros n; cbn [countWhere length].
  - intros [= <-]. lia.
  - destruct (p x) as [keep|]; cbn [rbind]; [|discriminate].
    destruct (countWhere p l) as [rest|]; cbn [rbind]; [|discriminate].
    specialize (IH rest eq_refl). intros [= <-]. destruct keep; lia.
Qed.

(** One element on which the predicate throws makes the count throw. *)
Lemma countWhere_throws {A} (p : A -> result bool) (l : list A) x e :
  In x l -> p x = Throw e -> exists e', countWhere p l = Throw e'.
Proof.
  induction l as [|y l IH]; intros Hin Hx; [contradiction|].
  cbn [countWhere]. destruct Hin as [-> | Hin].
  - rewrite Hx. cbn. eauto.
  - destruct (p y) as [keep|e1]; cbn [rbind]; [|eauto].
    destruct (IH Hin Hx) as [e' ->]. cbn. eauto.
Qed.

(** At most the elements that satisfy [q] are counted, when only they can
    be kept. *)
Lemma countWhere_le_filter {A} (p : A -> result bool) (q : A -> bool) (l : list A) n :
  (forall x, p x = Ok true -> q x = true) ->
  countWhere p l = Ok n -> n <= Z.of_nat (length (List.filter q l)).
Proof.
  intros Hpq. revert n.
  induction l as [|x l IH]; intros n; cbn [countWhere List.filter].
  - intros [= <-]. cbn. lia.
  - destruct (p x) as [keep|] eqn:Px; cbn [rbind]; [|discriminate].
    destruct (countWhere p l) as [rest|]; cbn [rbind]; [|discriminate].
    specialize (IH rest eq_refl). intros [= <-].
    destruct keep.
    + rewrite (Hpq x Px). cbn [length]. lia.
    + destruct (q x); cbn [length]; lia.
Qed.

End CountFacts.

Section UpdateExtras.

Import Cache Badges Recompute CachePaint.

Implicit Types (be : Backend) (page : Browser).

(** The fallback starts with a cache read, which reads the user: it ends
    the same on the page as [getUserInfo] leaves it. *)
Lemma pendingReversalsFallback_userRead now page :
  pendingReversalsFallback now (userRead page) = pendingReversalsFallback now page.
Proof.
  rewrite !pendingReversalsFallback_run. unfold userRead.
  cbn [userInfo localStorage badges]. now rewrite migrated_again, read_migrated.
Qed.

Lemma pendingAcknowledgmentsFallback_userRead now page :
  pendingAcknowledgmentsFallback now (userRead page)
  = pendingAcknowledgmentsFallback now page.
Proof.
  rewrite !pendingAcknowledgmentsFallback_run. unfold userRead.
  cbn [userInfo localStorage badges]. now rewrite migrated_again, read_migrated.
Qed.


(** X8.  Each reversal count keeps to its role.  For an employee the count
    of pending reversals is not computed: the reversal badge is hidden and
    the cache is left alone, whatever the backend holds.  For anyone who is
    not an employee (and without a user) the count of responded reversals
    leaves the cache and the badges alone.  In both cases the only other
    write is that of [getUserInfo], which copies the picture of the user to
    a missing avatar. *)
Theorem reversal_counts_keep_to_their_role be now page :
  (isEmployee (userInfo page) = true ->
     updatePendingReversalsCount be now page =
       (Ok tt, {| userInfo := migrated (userInfo page);
                  localStorage := localStorage page;
                  badges := setReversalBadgeCount (Int 0) (badges page) |})) /\
  (isEmployee (userInfo page) = false ->
     updateEmployeeReversalUpdatesCount be now page = (Ok tt, userRead page)).
Proof.
  split; intros H.
  - unfold updatePendingReversalsCount, tryCatch, pendingReversalsAttempt, bind.
    rewrite getUserInfo_run, isEmployee_migrated, H. reflexivity.
  - unfold updateEmployeeReversalUpdatesCount, tryCatch,
      employeeReversalsAttempt, bind.
    rewrite getUserInfo_run. rewrite <- isEmployee_migrated in H.
    unfold isEmployee in H. destruct (migrated (userInfo page)) as [u|];
      [|reflexivity].
    now rewrite H.
Qed.

Lemma reversal_counts_keep_to_their_role_witness :
  badges (snd (updatePendingReversalsCount MoreSamples.oneTable 1000
                 MoreSamples.employeePage)) !! "reversalNotificationBadge"
    = Some {| textContent := "0"; display := "none" |} /\
  updateEmployeeReversalUpdatesCount MoreSamples.oneTable 1000 MoreSamples.freshPage
    = (Ok tt, MoreSamples.freshPage).
Proof.
  destruct (reversal_counts_keep_to_their_role MoreSamples.oneTable 1000
              MoreSamples.employeePage) as [E _].
  destruct (reversal_counts_keep_to_their_role MoreSamples.oneTable 1000
              MoreSamples.freshPage) as [_ A].
  split; [rewrite (E eq_refl); reflexivity | exact (A eq_refl)].
Defined.



(** X10.  One record that the pending predicate cannot read spoils the
    whole count: the try block throws before anything is written to the
    cache or the badge (the page is as [getUserInfo] leaves it), and the
    recomputation ends as its fallback does. *)
Theorem unreadable_reversal_fails_the_count be now page data r e :
  isEmployee (userInfo page) = false ->
  supabaseClient be = true ->
  scorecards be = Resolves data false ->
  In r (combinedReversals be) ->
  isPendingWorkflowState r = Throw e ->
  (exists e', pendingReversalsAttempt be now page = (Throw e', userRead page)) /\
  updatePendingReversalsCount be now page = pendingReversalsFallback now page.
Proof.
  intros He Hc Hs Hin Hr.
  destruct (countWhere_throws _ _ r e Hin Hr) as [e' Hn].
  assert (A : pendingReversalsAttempt be now page = (Throw e', userRead page)).
  { unfold pendingReversalsAttempt, bind.
    now rewrite getUserInfo_run, isEmployee_migrated, He, Hc, Hs, Hn. }
  split; [eauto|].
  unfold updatePendingReversalsCount, tryCatch. rewrite A.
  apply pendingReversalsFallback_userRead.
Qed.

Lemma unreadable_reversal_fails_the_count_witness :
  updatePendingReversalsCount MoreSamples.oneUnreadable 1000 MoreSamples.freshPage
  = pendingReversalsFallback 1000 MoreSamples.freshPage.
Proof.
  apply (unreadable_reversal_fails_the_count MoreSamples.oneUnreadable 1000
           MoreSamples.freshPage (Some ["audits"]) Samples.legacyStatusNumber
           TypeError); try reflexivity.
  cbn. tauto.
Defined.

(** The email the acknowledgment count filters by can be computed exactly
    when the cache identity can. *)
Lemma current_email_defined (u : option (gmap string value)) e :
  cacheUserEmail u = Ok e -> exists mail, currentEmail u = Ok mail.
Proof.
  destruct u as [x|]; [|cbn; eauto]. unfold cacheUserEmail, currentEmail, orElse.
  destruct (truthy (field x "email")) eqn:T.
  - destruct (callToLowerCase (field x "email")); cbn [rbind]; [eauto|discriminate].
  - cbn. eauto.
Qed.

Lemma current_email_undefined (u : option (gmap string value)) err :
  cacheUserEmail u = Throw err -> exists err', currentEmail u = Throw err'.
Proof.
  destruct u as [x|]; [|discriminate]. unfold cacheUserEmail, currentEmail, orElse.
  destruct (truthy (field x "email")) eqn:T.
  - destruct (callToLowerCase (field x "email")); cbn [rbind]; [discriminate|eauto].
  - cbn. discriminate.
Qed.

Lemma currentEmail_migrated u : currentEmail (migrated u) = currentEmail u.
Proof.
  destruct u as [x|]; [|reflexivity]. unfold migrated.
  destruct (truthy _ && negb _); [|reflexivity].
  unfold currentEmail. now rewrite field_migrated by discriminate.
Qed.

(** The try block of the acknowledgment count up to the scorecards query. *)
Lemma pendingAcknowledgmentsAttempt_run be now page :
  supabaseClient be = true ->
  pendingAcknowledgmentsAttempt be now page =
    match currentEmail (userInfo page), scorecards be with
    | Throw err, _ => (Throw err, userRead page)
    | Ok _, Rejects => (Throw Rejected, userRead page)
    | Ok _, Resolves _ true => (Ok tt, userRead page)
    | Ok _, Resolves (Some (table :: tables)) false =>
        let n := fold_left
                   (fun total table =>
                      total + pendingInTable be (isEmployee (userInfo page))
                                (default "" (match currentEmail (userInfo page) with
                                             | Ok mail => Some mail
                                             | Throw _ => None
                                             end)) table)
                   (table :: tables) 0 in
        (Ok tt, {| userInfo := migrated (userInfo page);
                   localStorage :=
                     setCachedNotificationCount (userInfo page) now
                       "acknowledgments" (Int n) (localStorage page);
                   badges := setAcknowledgmentBadgeCount (Int n) (badges page) |})
    | Ok _, Resolves _ false =>
        (Ok tt, {| userInfo := migrated (userInfo page);
                   localStorage := localStorage page;
                   badges := setAcknowledgmentBadgeCount (Int 0) (badges page) |})
    end.
Proof.
  intros Hc. unfold pendingAcknowledgmentsAttempt.
  rewrite Hc. cbn [negb]. unfold bind. rewrite getUserInfo_run. unfold lift at 1.
  fold (currentEmail (migrated (userInfo page))).
  rewrite currentEmail_migrated, isEmployee_migrated.
  destruct (currentEmail (userInfo page)) as [mail|err]; [|reflexivity].
  destruct (scorecards be) as [|tables err]; [reflexivity|].
  cbv beta iota delta [ret lift await].
  destruct err; [now destruct tables as [[|? ?]|]|].
  destruct tables as [[|table tables]|]; try reflexivity.
  rewrite setCached_run. unfold setBadge, userRead.
  cbn [userInfo localStorage badges default from_option id].
  now rewrite migrated_again, write_migrated.
Qed.





(** The count of the sample backend is 1. *)
Example acknowledgment_count_of_one_table :
  badges (snd (updatePendingAcknowledgmentsCount MoreSamples.oneTable 1000
                 MoreSamples.freshPage)) !! "acknowledgmentNotificationBadge"
  = Some {| textContent := "1"; display := "inline-flex" |}.
Proof. vm_compute. reflexivity. Qed.

(** The email test of the filter callback: it holds exactly for a text that
    normalises to the user's email; else it fails or throws. *)
Lemma own_email_matches (F : value) (mail : string) :
  mail <> "" ->
  let test :=
    lower <- callToLowerCase (orElse F (VStr "")) ;;
    Ok (String.eqb (trim lower) mail) in
  (exists s, F = VStr s /\ String.eqb (trim (toLowerCase s)) mail = true) \/
  test = Ok false \/ exists err, test = Throw err.
Proof.
  intros Hm test. subst test. unfold orElse.
  destruct (truthy F) eqn:T.
  - destruct F as [| |b|x|s]; cbn [callToLowerCase rbind]; eauto.
    destruct (String.eqb (trim (toLowerCase s)) mail) eqn:M; eauto.
  - right. left. cbn.
    destruct mail; [contradiction|reflexivity].
Qed.

(** X12.  For an employee whose email, lower-cased and trimmed, is not
    empty, the acknowledgment count is the count of the employee's own
    rows: a row is counted only if its employee_email, lower-cased and
    trimmed, is the user's email, so the count of a table is at most the
    number of such rows.  An employee whose email is missing or blank is
    counted like a user who is no employee: the query is not filtered by
    email and the callback does not test it, so the rows of every user
    count. *)
Theorem employee_acknowledgments_are_own_rows
    (be : Backend) (table : string) (mail : string)
    (rows : list (gmap string value)) n :
  (mail <> "" ->
   countWhere (isPendingAcknowledgment true mail) rows = Ok n ->
   (forall audit, In audit rows ->
      isPendingAcknowledgment true mail audit = Ok true -> ownRow mail audit = true) /\
   0 <= n <= Z.of_nat (length (List.filter (ownRow mail) rows))) /\
  (forall audit,
     isPendingAcknowledgment true "" audit = isPendingAcknowledgment false "" audit) /\
  pendingInTable be true "" table = pendingInTable be false "" table.
Proof.
  split; [|split; reflexivity].
  intros Hm Hn.
  assert (Own : forall audit,
            isPendingAcknowledgment true mail audit = Ok true ->
            ownRow mail audit = true).
  { intros audit. unfold isPendingAcknowledgment.
    assert (E : String.eqb mail "" = false) by now apply String.eqb_neq.
    rewrite E. cbn [andb negb].
    destruct (own_email_matches (field audit "employee_email") mail Hm)
      as [[s [F M]] | [-> | [err ->]]].
    - unfold ownRow. rewrite F. intros _. exact M.
    - cbn. discriminate.
    - cbn. discriminate. }
  split; [intros audit _; apply Own|].
  split; [eapply countWhere_bounds; eauto|].
  eapply countWhere_le_filter; eauto.
Qed.

Lemma employee_acknowledgments_are_own_rows_witness :
  ownRow "a@x.com" MoreSamples.ownPendingRow = true /\
  1 <= Z.of_nat (length (List.filter (ownRow "a@x.com")
                           [MoreSamples.ownPendingRow; Samples.submitted])) /\
  pendingInTable MoreSamples.oneTable true "" "audits" = 1.
Proof.
  destruct (employee_acknowledgments_are_own_rows MoreSamples.oneTable "audits"
              "a@x.com" [MoreSamples.ownPendingRow; Samples.submitted] 1)
    as [Own [_ Same]].
  destruct Own as [Own [_ Le]]; [discriminate | reflexivity |].
  split; [apply Own; [left|]; reflexivity|]. split; [exact Le|].
  rewrite Same. reflexivity.
Defined.

(** An employee without an email: the pending row of a@x.com is counted
    for them. *)
Example employee_without_email_counts_all_rows :
  isPendingAcknowledgment true "" MoreSamples.ownPendingRow = Ok true /\
  ownRow "" MoreSamples.ownPendingRow = false.
Proof. split; reflexivity. Qed.








End UpdateExtras.

(** ** More on the classifier *)

Section ClassifierMore.

Implicit Types (r : gmap string value) (v : value) (s : string).

Lemma field_insert_eq r k v : field (<[k := v]> r) k = v.
Proof. unfold field. now rewrite lookup_insert_eq. Qed.

Lemma field_insert_ne r k k' v : k <> k' -> field (<[k := v]> r) k' = field r k'.
Proof. intros H. unfold field. now rewrite lookup_insert_ne. Qed.

Lemma toLowerCase_empty s : toLowerCase s = "" -> s = "".
Proof. destruct s; [reflexivity | discriminate]. Qed.

(** The status read from a record depends on the letter case of the text
    in neither spelling. *)
Lemma lowered_status_agrees s1 s2 v w :
  toLowerCase s1 = toLowerCase s2 ->
  callToLowerCase (orElse (orElse (VStr s1) v) w)
  = callToLowerCase (orElse (orElse (VStr s2) v) w).
Proof.
  intros E. unfold orElse at 2 4. cbn [truthy].
  destruct s1 as [|c1 s1], s2 as [|c2 s2]; try discriminate E; [reflexivity|].
  cbn [String.eqb negb]. unfold orElse. cbn [truthy String.eqb negb callToLowerCase].
  now rewrite E.
Qed.

End ClassifierMore.

Section ClassifierExtras.

Implicit Types (r : gmap string value) (v : value) (s : string).

(** X14.  A recorded team-lead rejection decides: whenever the explicit
    state is present and team_lead_approved, under either spelling, is one
    of false, 'false', 0, '0', the classifier returns team_lead_rejected,
    whatever the explicit state, the reviewer names and the other spelling
    hold. *)
Theorem team_lead_rejection_decides r :
  truthy (stateField r) = true ->
  isFalseFlag (field r "team_lead_approved")
  || isFalseFlag (field r "teamLeadApproved") = true ->
  getReversalWorkflowState r = Ok (VStr "team_lead_rejected").
Proof.
  unfold stateField. intros Hs Hr.
  unfold getReversalWorkflowState. rewrite Hs, Hr.
  rewrite orb_true_r. cbn [rbind truthy negb]. now rewrite andb_false_r.
Qed.

Lemma team_lead_rejection_decides_witness :
  getReversalWorkflowState MoreRecords.rejectedInQa = Ok (VStr "team_lead_rejected").
Proof.
  apply (team_lead_rejection_decides MoreRecords.rejectedInQa); reflexivity.
Defined.

(** X15.  In the two early review states the reviewer name decides when
    the team lead recorded neither approval nor rejection: with reviewer
    names that are text or absent, qa_review and cqc_review are kept when a
    name (either spelling) is not blank, and become team_lead_review
    otherwise. *)
Theorem early_review_needs_a_reviewer r state :
  stateField r = VStr state ->
  state = "qa_review" \/ state = "cqc_review" ->
  isTrueFlag (field r "team_lead_approved")
  || isTrueFlag (field r "teamLeadApproved") = false ->
  isFalseFlag (field r "team_lead_approved")
  || isFalseFlag (field r "teamLeadApproved") = false ->
  textOrFalsy (field r "team_lead_reviewed_by") ->
  textOrFalsy (field r "teamLeadReviewedBy") ->
  getReversalWorkflowState r =
    Ok (VStr (if namesReviewer (field r "team_lead_reviewed_by")
                 || namesReviewer (field r "teamLeadReviewedBy")
              then state else "team_lead_review")).
Proof.
  unfold stateField. intros Hs Hst Ha Hr H1 H2.
  assert (T : forall v, textOrFalsy v ->
            exists w, andTrim v = Ok w /\ truthy w = namesReviewer v).
  { intros v Hv. unfold andTrim.
    destruct v as [| |b|n|s]; cbn in Hv |- *; try rewrite Hv; eauto.
    destruct (String.eqb s "") eqn:E; cbn.
    - apply String.eqb_eq in E. subst. exists (VStr ""). split; reflexivity.
    - eauto. }
  destruct (T _ H1) as (w1 & E1 & T1). destruct (T _ H2) as (w2 & E2 & T2).
  unfold getReversalWorkflowState. rewrite Hs, Ha, Hr, E1.
  assert (Early : strict_eq (VStr state) (VStr "qa_review")
                  || strict_eq (VStr state) (VStr "cqc_review") = true)
    by (destruct Hst as [-> | ->]; reflexivity).
  assert (Ts : truthy (VStr state) = true)
    by (destruct Hst as [-> | ->]; reflexivity).
  rewrite Ts, Early. cbn [orb rbind]. rewrite <- T1, <- T2.
  destruct (truthy w1) eqn:W1; cbn [rbind orb andb negb].
  - now rewrite W1.
  - rewrite E2. cbn [rbind]. now destruct (truthy w2).
Qed.

Lemma early_review_needs_a_reviewer_witness :
  getReversalWorkflowState MoreRecords.cqcNamed = Ok (VStr "cqc_review") /\
  getReversalWorkflowState Samples.qaReviewBlankName = Ok (VStr "team_lead_review").
Proof.
  split.
  - apply (early_review_needs_a_reviewer MoreRecords.cqcNamed "cqc_review");
      first [reflexivity | (right; reflexivity) | exact I].
  - apply (early_review_needs_a_reviewer Samples.qaReviewBlankName "qa_review");
      first [reflexivity | (left; reflexivity) | exact I].
Defined.

(** X16.  The legacy status is read without regard to letter case: two
    texts that are equal once lower-cased, put in acknowledgement_status of
    the same record, give the same classification and the same answer of
    the pending predicate (the same error included). *)
Theorem legacy_status_ignores_case r s1 s2 :
  toLowerCase s1 = toLowerCase s2 ->
  let r1 := <["acknowledgement_status" := VStr s1]> r in
  let r2 := <["acknowledgement_status" := VStr s2]> r in
  getReversalWorkflowState r1 = getReversalWorkflowState r2 /\
  isPendingWorkflowState r1 = isPendingWorkflowState r2.
Proof.
  intros E r1 r2.
  assert (A : ackStatusOf r1 = ackStatusOf r2).
  { unfold ackStatusOf, r1, r2.
    rewrite !field_insert_eq, !field_insert_ne by discriminate.
    now apply lowered_status_agrees. }
  assert (G : getReversalWorkflowState r1 = getReversalWorkflowState r2).
  { unfold getReversalWorkflowState. rewrite A. unfold r1, r2.
    now rewrite !field_insert_ne by discriminate. }
  split; [exact G|].
  unfold isPendingWorkflowState. rewrite G, A. unfold r1, r2.
  now rewrite !field_insert_ne by discriminate.
Qed.

Lemma legacy_status_ignores_case_witness :
  getReversalWorkflowState {[ "acknowledgement_status" := VStr "CQC_Sent_Back" ]}
  = getReversalWorkflowState {[ "acknowledgement_status" := VStr "cqc_sent_back" ]}.
Proof.
  destruct (legacy_status_ignores_case ∅ "CQC_Sent_Back" "cqc_sent_back" eq_refl)
    as [G _].
  exact G.
Defined.

(** X17.  Beyond the classified state, two things decide the pending
    predicate on a record that can be read.  A legacy status with a
    composite marker ('pending - reversal_approved' or 'pending -
    reversal_rejected') makes the record pending whatever its state.
    Without a marker, a record classified approved, rejected, acknowledged
    or team_lead_rejected is not pending once a final decision is recorded
    or when the team lead recorded no approval. *)
Theorem pending_beyond_the_state r v s :
  getReversalWorkflowState r = Ok v ->
  ackStatusOf r = Ok s ->
  (hasPendingMarker s = true -> isPendingWorkflowState r = Ok true) /\
  (hasPendingMarker s = false ->
   In v [VStr "approved"; VStr "rejected"; VStr "acknowledged";
         VStr "team_lead_rejected"] ->
   (field r "reversal_approved" <> VNull /\ field r "reversal_approved" <> VUndefined)
   \/ isTrueFlag (field r "team_lead_approved")
      || isTrueFlag (field r "teamLeadApproved") = false ->
   isPendingWorkflowState r = Ok false).
Proof.
  intros G A. unfold isPendingWorkflowState, hasPendingMarker.
  rewrite G, A. cbn [rbind]. split.
  - intros M. rewrite M.
    destruct (arrayIncludes pendingStates v); [reflexivity|].
    now destruct (_ && _).
  - intros M Hv Hd. rewrite M.
    assert (P : arrayIncludes pendingStates v = false
                /\ strict_eq v (VStr "qa_review")
                   || strict_eq v (VStr "cqc_review") = false).
    { cbn [In] in Hv.
      destruct Hv as [<- | [<- | [<- | [<- | []]]]]; split; reflexivity. }
    destruct P as [-> ->].
    destruct Hd as [[N1 N2] | ->]; [|reflexivity].
    assert (D : negb (strict_eq (field r "reversal_approved") VNull)
                && negb (strict_eq (field r "reversal_approved") VUndefined) = true).
    { destruct (field r "reversal_approved"); try reflexivity; congruence. }
    rewrite D. cbn [negb]. now rewrite andb_false_r.
Qed.

Lemma pending_beyond_the_state_witness :
  getReversalWorkflowState MoreRecords.markedApproved = Ok (VStr "approved") /\
  isPendingWorkflowState MoreRecords.markedApproved = Ok true /\
  isPendingWorkflowState MoreRecords.decidedApproved = Ok false.
Proof.
  destruct (pending_beyond_the_state MoreRecords.markedApproved (VStr "approved")
              "pending - reversal_approved" eq_refl eq_refl) as [M _].
  destruct (pending_beyond_the_state MoreRecords.decidedApproved (VStr "approved")
              "" eq_refl eq_refl) as [_ D].
  split; [reflexivity|]. split; [apply M; reflexivity|].
  apply D; [reflexivity | cbn; tauto |].
  left. split; discriminate.
Defined.

End ClassifierExtras.

(** ** More on the role gating *)

Section MenuMore.

Import Menu.

Implicit Types (touch : option string -> Item -> bool) (menu : list Li).

Lemma entriesOfLi_submenu i it d sub :
  entriesOfLi (MkLi i it d sub) = (i, it, d) :: entriesOf sub.
Proof.
  reflexivity.
Qed.

Lemma hideInLi_submenu sel i it d sub :
  hideInLi sel (MkLi i it d sub) =
    if sel it then Some (MkLi i it (Some "none") sub)
    else option_map (MkLi i it d) (hideFirst sel sub).
Proof.
  cbn [hideInLi]. destruct (sel it); [reflexivity|].
  match goal with
  | |- match ?a with _ => _ end = option_map _ ?b => assert (E : a = b)
  end.
  { induction sub as [|x xs IH]; [reflexivity|]. cbn [hideFirst].
    destruct (hideInLi sel x); [reflexivity | now rewrite IH]. }
  rewrite E. now destruct (hideFirst sel sub).
Qed.

Lemma sameEntryBut_refl touch a : sameEntryBut touch a a.
Proof. split; [reflexivity | now left]. Qed.

Lemma same_entries_refl touch (l : list (option string * Item * option string)) :
  Forall2 (sameEntryBut touch) l l.
Proof. induction l; constructor; auto using sameEntryBut_refl. Qed.

Lemma SameMenuBut_refl touch menu : SameMenuBut touch menu menu.
Proof. apply same_entries_refl. Qed.

Lemma SameMenuBut_trans touch m1 m2 m3 :
  SameMenuBut touch m1 m2 -> SameMenuBut touch m2 m3 -> SameMenuBut touch m1 m3.
Proof.
  unfold SameMenuBut. generalize (entriesOf m1) (entriesOf m2) (entriesOf m3).
  intros l1 l2 l3 H. revert l3.
  induction H as [|a b l1 l2 [Hab Dab] _ IH]; intros l3 H3; inversion H3 as [|? c ? l3' [Hbc Dbc] T]; subst;
    constructor; auto.
  split; [congruence|].
  destruct Dab as [Dab | Dab]; [|now right].
  destruct Dbc as [Dbc | Dbc]; [left; congruence|].
  right. now rewrite Hab.
Qed.

Lemma SameMenuBut_weaken touch touch' m1 m2 :
  (forall i it, touch i it = true -> touch' i it = true) ->
  SameMenuBut touch m1 m2 -> SameMenuBut touch' m1 m2.
Proof.
  intros W H. unfold SameMenuBut in *. eapply Forall2_impl; [exact H|].
  intros a b [E [D | D]]; split; auto.
Qed.

(** Changing the first entry that a test picks changes the display of an
    entry that passes the test, and nothing else. *)
Section FirstEntry.

Variable pick : option string -> Item -> bool.
Variable inLi : Li -> option Li.
Variable inMenu : list Li -> option (list Li).
Variable d' : option string.

Hypothesis inLi_submenu : forall i it d sub,
  inLi (MkLi i it d sub) =
    if pick i it then Some (MkLi i it d' sub)
    else option_map (MkLi i it d) (inMenu sub).
Hypothesis inMenu_nil : inMenu [] = None.
Hypothesis inMenu_cons : forall x xs,
  inMenu (x :: xs) =
    match inLi x with
    | Some x' => Some (x' :: xs)
    | None => option_map (cons x) (inMenu xs)
    end.

Lemma first_entry_in_menu menu :
  Forall (fun l => forall l', inLi l = Some l' ->
            Forall2 (sameEntryBut pick) (entriesOfLi l) (entriesOfLi l')) menu ->
  forall menu', inMenu menu = Some menu' -> SameMenuBut pick menu menu'.
Proof.
  induction 1 as [|x xs Hx _ IH]; intros menu'.
  - now rewrite inMenu_nil.
  - rewrite inMenu_cons. destruct (inLi x) as [x'|] eqn:E.
    + intros [= <-]. unfold SameMenuBut, entriesOf. cbn [flat_map].
      apply Forall2_app; [now apply Hx | apply same_entries_refl].
    + destruct (inMenu xs) as [xs'|]; [|discriminate]. intros [= <-].
      unfold SameMenuBut, entriesOf. cbn [flat_map].
      apply Forall2_app; [apply same_entries_refl | now apply IH].
Qed.

Lemma first_entry_in_li l :
  forall l', inLi l = Some l' ->
    Forall2 (sameEntryBut pick) (entriesOfLi l) (entriesOfLi l').
Proof.
  induction l as [i it d sub IH] using Li_induction. intros l'.
  rewrite inLi_submenu. destruct (pick i it) eqn:P.
  - intros [= <-]. rewrite !entriesOfLi_submenu. constructor.
    + split; [reflexivity | now right].
    + apply same_entries_refl.
  - destruct (inMenu sub) as [sub'|] eqn:E; [|discriminate]. intros [= <-].
    rewrite !entriesOfLi_submenu. constructor; [apply sameEntryBut_refl|].
    now apply (first_entry_in_menu sub IH).
Qed.

Lemma first_entry menu menu' :
  inMenu menu = Some menu' -> SameMenuBut pick menu menu'.
Proof.
  apply first_entry_in_menu, Forall_forall. intros l _. apply first_entry_in_li.
Qed.

End FirstEntry.

Lemma hide_same_but sel menu :
  SameMenuBut (fun _ it => sel it) menu (hide sel menu).
Proof.
  unfold hide. destruct (hideFirst sel menu) as [menu'|] eqn:E;
    [|apply SameMenuBut_refl].
  cbn [default from_option].
  apply (first_entry (fun _ it => sel it) (hideInLi sel) (hideFirst sel)
           (Some "none")); auto using hideInLi_submenu.
Qed.

Lemma hideFirst_same_but sel menu menu' :
  hideFirst sel menu = Some menu' ->
  SameMenuBut (fun _ it => sel it) menu menu'.
Proof.
  apply (first_entry (fun _ it => sel it) (hideInLi sel) (hideFirst sel)
           (Some "none")); auto using hideInLi_submenu.
Qed.

Lemma updateAccessControlMenuItem_same_but u menu :
  SameMenuBut (fun i _ => bool_decide (i = Some "accessControlMenuItem"))
    menu (updateAccessControlMenuItem u menu).
Proof.
  unfold updateAccessControlMenuItem.
  match goal with
  | |- context [showFirst ?t ?d menu] =>
      destruct (showFirst t d menu) as [menu'|] eqn:E;
      [|apply SameMenuBut_refl];
      cbn [default from_option];
      apply (first_entry (fun i _ => bool_decide (i = Some t))
               (showInLi t d) (showFirst t d) (Some d));
      auto using showInLi_submenu
  end.
Qed.

(** Setting the display of the entry again changes nothing more. *)
Lemma showFirst_again target d menu menu' :
  showFirst target d menu = Some menu' ->
  showFirst target d menu' = Some menu'.
Proof.
  assert (L : forall l l', showInLi target d l = Some l' ->
                           showInLi target d l' = Some l').
  { intros l. induction l as [i it old sub IH] using Li_induction. intros l'.
    rewrite showInLi_submenu. destruct (bool_decide (i = Some target)) eqn:B.
    - intros [= <-]. now rewrite showInLi_submenu, B.
    - assert (S : forall sub', showFirst target d sub = Some sub' ->
                               showFirst target d sub' = Some sub').
      { clear B. induction IH as [|x xs Hx _ IHxs]; intros sub';
          cbn [showFirst]; [discriminate|].
        destruct (showInLi target d x) as [x'|] eqn:E.
        - intros [= <-]. cbn [showFirst].
          now rewrite (Hx _ eq_refl).
        - destruct (showFirst target d xs) as [xs'|]; [|discriminate].
          intros [= <-]. cbn [showFirst]. rewrite E.
          now rewrite (IHxs _ eq_refl). }
      destruct (showFirst target d sub) as [sub'|]; [|discriminate].
      intros [= <-]. rewrite showInLi_submenu, B.
      now rewrite (S _ eq_refl). }
  revert menu'. induction menu as [|x xs IH]; intros menu'; cbn [showFirst];
    [discriminate|].
  destruct (showInLi target d x) as [x'|] eqn:E.
  - intros [= <-]. cbn [showFirst]. now rewrite (L _ _ E).
  - destruct (showFirst target d xs) as [xs'|]; [|discriminate].
    intros [= <-]. cbn [showFirst]. rewrite E. now rewrite (IH _ eq_refl).
Qed.

End MenuMore.

Section MenuExtras.

Import Menu.

Ltac gated_selector :=
  let i := fresh "i" in let it := fresh "it" in let H := fresh "H" in
  intros i it H; unfold gatedEntry; rewrite H, ?orb_true_r; reflexivity.

(** X18.  On every menu and for every user, the role gating keeps the
    entries, their order, their ids and their items, and changes the
    display of no entry other than the Access Control entry and the entries
    that a selector of [hideEmployeeMenuItems] matches: an entry that is
    none of these, such as Profile, keeps its display. *)
Theorem role_gating_touches_gated_entries_only
    (u : option (gmap string value)) (menu : list Li) :
  SameMenuBut gatedEntry menu (applyRoleGating u menu) /\
  (forall n i it d,
     entriesOf menu !! n = Some (i, it, d) ->
     gatedEntry i it = false ->
     entriesOf (applyRoleGating u menu) !! n = Some (i, it, d)).
Proof.
  assert (A : forall m, SameMenuBut gatedEntry m (updateAccessControlMenuItem u m)).
  { intros m. eapply SameMenuBut_weaken;
      [|apply updateAccessControlMenuItem_same_but].
    intros i it H. unfold gatedEntry. now rewrite H. }
  assert (H1 : forall sel m,
            (forall i it, sel it = true -> gatedEntry i it = true) ->
            SameMenuBut gatedEntry m (hide sel m)).
  { intros sel m W. eapply SameMenuBut_weaken; [|apply hide_same_but]. exact W. }
  assert (E : SameMenuBut gatedEntry menu (hideEmployeeMenuItems u menu)).
  { unfold hideEmployeeMenuItems. destruct u as [x|]; [|apply SameMenuBut_refl].
    destruct (negb _); [apply SameMenuBut_refl|]. cbv zeta.
    eapply SameMenuBut_trans; [|apply A].
    eapply SameMenuBut_trans; [|apply H1; gated_selector].
    eapply SameMenuBut_trans; [|apply H1; gated_selector].
    eapply SameMenuBut_trans; [|apply H1; gated_selector].
    eapply SameMenuBut_trans; [|apply H1; gated_selector].
    eapply SameMenuBut_trans; [|apply H1; gated_selector].
    eapply SameMenuBut_trans; [|apply H1; gated_selector].
    destruct (hideFirst (byLabel "Auditor's Dashboard") menu) as [m'|] eqn:F.
    - eapply SameMenuBut_weaken; [|apply hideFirst_same_but; exact F].
      gated_selector.
    - apply H1. gated_selector. }
  assert (G : SameMenuBut gatedEntry menu (applyRoleGating u menu)).
  { unfold applyRoleGating. eapply SameMenuBut_trans; [exact E | apply A]. }
  split; [exact G|].
  intros n i it d Hn Hg.
  destruct (Forall2_lookup_l _ _ _ _ _ G Hn) as ([[i' it'] d'] & Hn' & [S D]).
  cbn [fst snd] in S, D. injection S as <- <-.
  destruct D as [<- | D]; [exact Hn' | congruence].
Qed.

(** X19.  Setting the Access Control entry twice is setting it once, on
    every menu; so for an employee the second call that [loadSidebar] makes
    after [hideEmployeeMenuItems] changes nothing. *)
Theorem access_control_update_is_idempotent
    (u : option (gmap string value)) (menu : list Li) :
  updateAccessControlMenuItem u (updateAccessControlMenuItem u menu)
  = updateAccessControlMenuItem u menu /\
  (roleOf u = VStr "Employee" ->
   applyRoleGating u menu = hideEmployeeMenuItems u menu).
Proof.
  assert (I : forall m, updateAccessControlMenuItem u (updateAccessControlMenuItem u m)
                        = updateAccessControlMenuItem u m).
  { intros m. unfold updateAccessControlMenuItem.
    set (d := if match u with
                 | Some x => strict_eq (field x "role") (VStr "Super Admin")
                 | None => false
                 end then "block" else "none").
    destruct (showFirst "accessControlMenuItem" d m) as [m'|] eqn:E.
    - change (default m (Some m')) with m'.
      now rewrite (showFirst_again _ _ _ _ E).
    - change (default m None) with m. now rewrite E. }
  split; [apply I|].
  intros R. unfold applyRoleGating, hideEmployeeMenuItems.
  destruct u as [x|]; [|discriminate R]. cbn [roleOf] in R.
  rewrite role_or_empty, R. cbn [strict_eq String.eqb Ascii.eqb Bool.eqb negb].
  cbv zeta. apply I.
Qed.

Lemma access_control_update_is_idempotent_witness :
  applyRoleGating Pages.employeeA MoreMenus.custom
  = hideEmployeeMenuItems Pages.employeeA MoreMenus.custom.
Proof.
  destruct (access_control_update_is_idempotent Pages.employeeA MoreMenus.custom)
    as [_ E].
  apply E. reflexivity.
Defined.

(** On the custom menu the gating hides the first Search entry only, and
    leaves the Profile link alone. *)
Example custom_menu_gating :
  hidden (applyRoleGating Pages.employeeA MoreMenus.custom)
  = ["Search"; "access-control.html"].
Proof. vm_compute. reflexivity. Qed.

End MenuExtras.

(** ** The update timers *)

Section TimerClearing.

Import Timers.

Lemma clear_running (st : TimerState) :
  running (clearNotificationUpdateIntervals st) = running st ∖ held st.
Proof.
  unfold clearNotificationUpdateIntervals, held, clearOne, clearInterval.
  cbn [running].
  destruct (reversals _) as [h1|], (employeeReversals _) as [h2|],
    (acknowledgments _) as [h3|];
    apply set_eq; intros x;
    rewrite ?elem_of_difference, ?elem_of_union, ?elem_of_difference,
      ?elem_of_singleton, ?elem_of_empty;
    tauto.
Qed.

(** X21.  Clearing the timers stops exactly the timers the loader holds
    and forgets their handles; clearing again changes nothing. *)
Theorem clear_stops_own_timers (st : TimerState) :
  let st' := clearNotificationUpdateIntervals st in
  held st' = ∅ /\
  running st' = running st ∖ held st /\
  clearNotificationUpdateIntervals st' = st'.
Proof.
  intros st'. split; [|split].
  - subst st'. unfold held, clearNotificationUpdateIntervals.
    cbn [notificationUpdateIntervals reversals employeeReversals
           acknowledgments]. now rewrite !union_empty_l_L.
  - apply clear_running.
  - reflexivity.
Qed.

End TimerClearing.

Section TimerExtras.

Import Timers.

Variable newId : gset positive -> positive.
Hypothesis newId_fresh : forall timers, newId timers ∉ timers.

(** X20.  Setting up the timers leaves the loader with exactly three
    running timers, one per category, whatever it held before: the timers
    it held are stopped first, and no timer of anyone else in the window is
    stopped or lost. *)
Theorem setup_holds_exactly_three_timers (st : TimerState) :
  let st' := setupNotificationUpdateIntervals newId st in
  size (held st') = 3%nat /\
  held st' ⊆ running st' /\
  running st' ∖ held st' = running st ∖ held st.
Proof.
  intros st'.
  set (r0 := running (clearNotificationUpdateIntervals st)).
  set (h1 := newId r0).
  set (h2 := newId ({[h1]} ∪ r0)).
  set (h3 := newId ({[h2]} ∪ ({[h1]} ∪ r0))).
  assert (Hh : held st' = {[h1]} ∪ {[h2]} ∪ {[h3]}) by reflexivity.
  assert (Hr : running st' = {[h3]} ∪ ({[h2]} ∪ ({[h1]} ∪ r0))) by reflexivity.
  assert (F1 : h1 ∉ r0) by apply newId_fresh.
  assert (F2 : h2 ∉ {[h1]} ∪ r0) by apply newId_fresh.
  assert (F3 : h3 ∉ {[h2]} ∪ ({[h1]} ∪ r0)) by apply newId_fresh.
  rewrite Hh, Hr, <- (clear_running st). fold r0.
  clearbody h1 h2 h3 r0. clear Hh Hr st'.
  apply not_elem_of_union in F2 as [N21 F2].
  apply not_elem_of_union in F3 as [N32 F3].
  apply not_elem_of_union in F3 as [N31 F3].
  apply not_elem_of_singleton in N21, N32, N31.
  split; [|split].
  - rewrite !size_union, !size_singleton; [reflexivity| |].
    + apply disjoint_singleton_l. now rewrite not_elem_of_singleton.
    + apply disjoint_singleton_r.
      rewrite not_elem_of_union, !not_elem_of_singleton. auto.
  - intros x. rewrite !elem_of_union. tauto.
  - apply set_eq. intros x.
    rewrite elem_of_difference, !elem_of_union, !elem_of_singleton.
    split; [tauto|]. intros Hx. split; [tauto|].
    intros [[-> | ->] | ->]; contradiction.
Qed.

End TimerExtras.

Section TimerExamples.

Import Timers.

Lemma setup_holds_exactly_three_timers_witness :
  let st' := setupNotificationUpdateIntervals fresh
               (setupNotificationUpdateIntervals fresh MoreTimers.idle) in
  size (held st') = 3%nat /\
  running st' ∖ held st' = {[ 5%positive ]}.
Proof.
  intros st'.
  destruct (setup_holds_exactly_three_timers fresh is_fresh
              (setupNotificationUpdateIntervals fresh MoreTimers.idle))
    as (S & _ & R).
  destruct (setup_holds_exactly_three_timers fresh is_fresh MoreTimers.idle)
    as (_ & _ & R0).
  fold st' in S, R. split; [exact S|].
  rewrite R, R0. vm_compute. reflexivity.
Defined.

End TimerExamples.

(** ** Which pages get a sidebar *)

Section PathMore.

Import Pathname.

Lemma append_cons a (s t : string) : String a s +:+ t = String a (s +:+ t).
Proof. reflexivity. Qed.

Lemma append_empty_r (s : string) : s +:+ EmptyString = s.
Proof. induction s as [|a s IH]; [reflexivity|]. now rewrite append_cons, IH. Qed.

Lemma append_char (seen : string) c (s : string) :
  (seen +:+ String c EmptyString) +:+ s = seen +:+ String c s.
Proof.
  induction seen as [|a seen IH]; [reflexivity|]. now rewrite !append_cons, IH.
Qed.

Lemma slashFree_append (s t : string) :
  slashFree s = true -> slashFree t = true -> slashFree (s +:+ t) = true.
Proof.
  induction s as [|c s IH]; [auto|]. rewrite append_cons. cbn [slashFree].
  intros H Ht. apply andb_true_iff in H as [-> H]. cbn [andb]. auto.
Qed.

(** A file name is read as it is. *)
Lemma lastSegmentFrom_file seen file :
  slashFree file = true -> lastSegmentFrom seen file = seen +:+ file.
Proof.
  revert seen. induction file as [|c file IH]; intros seen; cbn [slashFree lastSegmentFrom].
  - intros _. now rewrite append_empty_r.
  - intros H. apply andb_true_iff in H as [Hc H].
    apply negb_true_iff in Hc. rewrite Hc, IH by exact H. apply append_char.
Qed.

(** What precedes a slash is forgotten. *)
Lemma lastSegmentFrom_dir seen dir rest :
  lastSegmentFrom seen (dir +:+ String "/" rest) = lastSegmentFrom EmptyString rest.
Proof.
  revert seen. induction dir as [|c dir IH]; intros seen.
  - reflexivity.
  - rewrite append_cons. cbn [lastSegmentFrom].
    destruct (Ascii.eqb c "/"); apply IH.
Qed.

Lemma lastSegmentFrom_slashFree seen s :
  slashFree seen = true -> slashFree (lastSegmentFrom seen s) = true.
Proof.
  revert seen. induction s as [|c s IH]; intros seen H; cbn [lastSegmentFrom];
    [exact H|].
  destruct (Ascii.eqb c "/") eqn:E; [now apply IH|].
  apply IH, slashFree_append; [exact H|]. cbn [slashFree]. now rewrite E.
Qed.

End PathMore.

Section PathExtras.

Import Pathname.

(** X22.  The page of a path is its file name: what follows the last
    slash, never containing a slash.  So [init] loads the sidebar on every
    page but login.html and index.html, in whatever directory they are. *)
Theorem init_skips_login_and_index (dir file : string) :
  slashFree file = true ->
  currentPage (dir +:+ "/" +:+ file) = file /\
  currentPage file = file /\
  (forall pathname, slashFree (currentPage pathname) = true) /\
  (init (dir +:+ "/" +:+ file) = false <->
   file = "login.html" \/ file = "index.html").
Proof.
  intros H.
  assert (E : currentPage (dir +:+ "/" +:+ file) = file).
  { unfold currentPage.
    change (dir +:+ "/" +:+ file) with (dir +:+ String "/" file).
    rewrite lastSegmentFrom_dir. now apply lastSegmentFrom_file. }
  split; [exact E|].
  split; [now apply lastSegmentFrom_file|].
  split; [intros p; now apply lastSegmentFrom_slashFree|].
  unfold init. rewrite E. unfold pagesWithoutSidebar. cbn [existsb].
  rewrite negb_false_iff, orb_false_r, orb_true_iff, !String.eqb_eq.
  reflexivity.
Qed.

Lemma init_skips_login_and_index_witness :
  currentPage "/cqms/app/login.html" = "login.html" /\
  init "/cqms/app/login.html" = false /\
  init "/cqms/app/home.html" = true.
Proof.
  destruct (init_skips_login_and_index "/cqms/app" "login.html" eq_refl)
    as (E & _ & _ & I).
  split; [exact E|]. split; [apply I; now left | reflexivity].
Defined.

(** A path that ends in a slash has the empty page and gets a sidebar. *)
Example directory_path_gets_sidebar :
  currentPage "/cqms/login.html/" = "" /\ init "/cqms/login.html/" = true.
Proof. split; reflexivity. Qed.

End PathExtras.

(** ** Records that can be read *)

Section ReadableExtras.

Import Cache Badges Recompute.


Lemma explicit_state_total (r : gmap string value) :
  truthy (stateField r) = true ->
  textOrFalsy (field r "team_lead_reviewed_by") ->
  textOrFalsy (field r "teamLeadReviewedBy") ->
  exists v, getReversalWorkflowState r = Ok v.
Proof.
  unfold stateField. intros Hs H1 H2.
  destruct (andTrim_textOrFalsy _ H1) as [w1 E1].
  destruct (andTrim_textOrFalsy _ H2) as [w2 E2].
  unfold getReversalWorkflowState. rewrite Hs, E1, E2. cbv zeta.
  destruct (_ || _ || (_ || _)); cbn [rbind];
    [|destruct (truthy w1); cbn [rbind]];
    repeat match goal with
           | |- context [if ?c then _ else _] => destruct c
           end; eauto.
Qed.

Lemma classifier_total (r : gmap string value) s :
  textOrFalsy (field r "team_lead_reviewed_by") ->
  textOrFalsy (field r "teamLeadReviewedBy") ->
  ackStatusOf r = Ok s ->
  exists v, getReversalWorkflowState r = Ok v.
Proof.
  intros H1 H2 A. destruct (truthy (stateField r)) eqn:T.
  - now apply explicit_state_total.
  - unfold stateField in T. unfold getReversalWorkflowState.
    rewrite T, A. cbn [rbind]. destruct (legacyKeyword s); eauto.
Qed.

Lemma pending_total (r : gmap string value) v s :
  getReversalWorkflowState r = Ok v ->
  ackStatusOf r = Ok s ->
  exists b, isPendingWorkflowState r = Ok b.
Proof.
  intros G A. unfold isPendingWorkflowState. rewrite G, A. cbn [rbind].
  repeat match goal with
         | |- context [if ?c then _ else _] => destruct c
         end; eauto.
Qed.

(** X23.  The classifier and the pending predicate throw on ill-typed text
    only: on a record whose reviewer names and legacy statuses hold text or
    nothing both return a result.  So a reversal count over such records
    never falls back: it is written to the cache and shown. *)
Theorem readable_records_are_classified (r : gmap string value) :
  textFieldsReadable r ->
  (exists v, getReversalWorkflowState r = Ok v) /\
  (exists b, isPendingWorkflowState r = Ok b).
Proof.
  intros (H1 & H2 & H3 & H4).
  destruct (ackStatusOf_total r H3 H4) as [s A].
  destruct (classifier_total r s H1 H2 A) as [v G].
  split; [eauto|]. eapply pending_total; eauto.
Qed.

Lemma readable_records_are_classified_witness :
  (exists v, getReversalWorkflowState Samples.qaReviewNamed = Ok v) /\
  (exists b, isPendingWorkflowState Samples.qaReviewNamed = Ok b).
Proof.
  apply (readable_records_are_classified Samples.qaReviewNamed).
  repeat split; vm_compute; auto.
Defined.



End ReadableExtras.

Section FallbackExtras.

Import Cache Badges Recompute.

(** X25.  The last good count outlives a failure: when the try block of
    the reversal or of the acknowledgment count throws at most five minutes
    after a count was written for that category, the storage stays as it is
    and the badge shows that count. *)
Theorem last_count_survives_failure be now page e page1 mail t0 n ls0 :
  cacheUserEmail (userInfo page) = Ok mail ->
  now - t0 <= CACHE_DURATION_MS ->
  (pendingReversalsAttempt be now page = (Throw e, page1) ->
   localStorage page
     = setCachedNotificationCount (userInfo page) t0 "reversals" (Int n) ls0 ->
   let after := snd (updatePendingReversalsCount be now page) in
   localStorage after = localStorage page /\
   badges after = setReversalBadgeCount (Int n) (badges page)) /\
  (pendingAcknowledgmentsAttempt be now page = (Throw e, page1) ->
   localStorage page
     = setCachedNotificationCount (userInfo page) t0 "acknowledgments" (Int n) ls0 ->
   let after := snd (updatePendingAcknowledgmentsCount be now page) in
   localStorage after = localStorage page /\
   badges after = setAcknowledgmentBadgeCount (Int n) (badges page)).
Proof.
  intros Hm Ht.
  assert (R : forall type,
            getCachedNotificationCount (userInfo page) now type
              (setCachedNotificationCount (userInfo page) t0 type (Int n) ls0)
            = (Some (Int n),
               setCachedNotificationCount (userInfo page) t0 type (Int n) ls0)).
  { intros type.
    destruct (read_after_write (userInfo page) type mail n t0 now ls0 Hm)
      as (_ & _ & R).
    rewrite R. destruct (Z.gtb_spec (now - t0) CACHE_DURATION_MS); [lia|reflexivity]. }
  split; intros H Hls after; subst after.
  - destruct (failed_recomputation_run "reversals" _ _ _ be now page e page1
                (or_introl eq_refl) H) as [_ Run].
    rewrite Run. cbn [snd localStorage badges]. rewrite Hls, R. split; reflexivity.
  - destruct (failed_recomputation_run "acknowledgments" _ _ _ be now page e page1
                (or_intror (or_intror (or_introl eq_refl))) H) as [_ Run].
    rewrite Run. cbn [snd localStorage badges]. rewrite Hls, R. split; reflexivity.
Qed.

Lemma last_count_survives_failure_witness :
  let after := snd (updatePendingAcknowledgmentsCount Pages.unreachable 2000
                      MoreSamples.ackCachedAt1000) in
  localStorage after = localStorage MoreSamples.ackCachedAt1000 /\
  badges after = setAcknowledgmentBadgeCount (Int 5) Pages.badges0.
Proof.
  destruct (last_count_survives_failure Pages.unreachable 2000
              MoreSamples.ackCachedAt1000 Rejected MoreSamples.ackCachedAt1000
              "a@x.com" 1000 5 ∅ eq_refl) as [_ A].
  - unfold CACHE_DURATION_MS. lia.
  - apply A; reflexivity.
Defined.

(** X26.  A scorecards query that answers with an error ends a
    recomputation at once and without the cache fallback, with the cache
    and the badges exactly as they were; the only write is that of
    [getUserInfo], which copies the picture of the user to a missing
    avatar.  This holds of the count of responded reversals for every user,
    of the count of pending reversals for a user who is no employee (for an
    employee the badge is hidden before the query), and of the count of
    pending acknowledgments for a user whose email is text or missing; for
    a user whose email is no text that count throws before the query and
    ends as its fallback does. *)
Theorem scorecards_error_leaves_page be now page data :
  supabaseClient be = true ->
  scorecards be = Resolves data true ->
  (isEmployee (userInfo page) = false ->
   updatePendingReversalsCount be now page = (Ok tt, userRead page)) /\
  updateEmployeeReversalUpdatesCount be now page = (Ok tt, userRead page) /\
  (forall mail, cacheUserEmail (userInfo page) = Ok mail ->
   updatePendingAcknowledgmentsCount be now page = (Ok tt, userRead page)) /\
  (forall err, cacheUserEmail (userInfo page) = Throw err ->
   updatePendingAcknowledgmentsCount be now page
   = pendingAcknowledgmentsFallback now page).
Proof.
  intros Hc Hs. split; [|split; [|split]].
  - intros He.
    unfold updatePendingReversalsCount, tryCatch, pendingReversalsAttempt, bind.
    now rewrite getUserInfo_run, isEmployee_migrated, He, Hc, Hs.
  - unfold updateEmployeeReversalUpdatesCount, tryCatch,
      employeeReversalsAttempt, bind.
    rewrite getUserInfo_run.
    destruct (migrated (userInfo page)) as [u|]; [|reflexivity].
    rewrite Hc, Hs. cbn [negb].
    destruct (negb (strict_eq _ _)); [reflexivity|].
    now destruct (_ && _).
  - intros mail Hm. destruct (current_email_defined _ mail Hm) as [cur Hcur].
    unfold updatePendingAcknowledgmentsCount, tryCatch.
    rewrite (pendingAcknowledgmentsAttempt_run be now page Hc), Hcur, Hs.
    now destruct data as [[|table tables]|].
  - intros err Hm. destruct (current_email_undefined _ err Hm) as [err' Hcur].
    unfold updatePendingAcknowledgmentsCount, tryCatch.
    rewrite (pendingAcknowledgmentsAttempt_run be now page Hc), Hcur.
    apply pendingAcknowledgmentsFallback_userRead.
Qed.

Lemma scorecards_error_leaves_page_witness :
  updatePendingAcknowledgmentsCount MoreSamples.scorecardsError 2000
    Pages.cachedAt1000 = (Ok tt, Pages.cachedAt1000) /\
  updatePendingReversalsCount MoreSamples.scorecardsError 2000
    Pages.cachedAt1000 = (Ok tt, Pages.cachedAt1000).
Proof.
  destruct (scorecards_error_leaves_page MoreSamples.scorecardsError 2000
              Pages.cachedAt1000 None eq_refl eq_refl) as (R & _ & A & _).
  split; [apply (A "a@x.com"); reflexivity | apply R; reflexivity].
Defined.

End FallbackExtras.
